(** * M5Stack flash samples: a shallow embedding and its properties

    The repository holds two MicroPython scripts for the M5Stack board:

    - [examples/flash-sample.py] (the extended variant, module [Extended]);
    - [examples/flash-sample-simple.py] (the simple variant, module [Simple]).

    Both build a few text boxes and then run [while True] over a [try] block
    that draws a random background colour, bumps a counter and redraws the
    labels.  The scripts are embedded as programs of a state-and-exception
    monad over the device state; the firmware modules they call
    ([m5stack], [m5ui], [time], [urandom]) are the environment [Env]. *)

From Stdlib Require Import ZArith Lia String Ascii List Bool Reals Lra.
From stdpp Require Import base tactics option list.

Import ListNotations.
Local Open Scope string_scope.
Local Open Scope Z_scope.

(** ** Python values *)

(** *** Integers rendered as text

    MicroPython integers are unbounded, hence [Z].  [str(n)], [{n}],
    [{n:02d}] and [{n:06X}] all render the magnitude in positional notation,
    most significant digit first. *)

Definition digit_char (d : Z) : ascii :=
  nth (Z.to_nat d) (list_ascii_of_string "0123456789ABCDEF") "?"%char.

(** [render_digits base fuel n acc] pushes the digits of [n] in front of
    [acc]; one unit of fuel is spent per digit. *)
Fixpoint render_digits (base : Z) (fuel : nat) (n : Z) (acc : string) : string :=
  match fuel with
  | O => acc
  | S fuel' =>
      let acc' := String (digit_char (n mod base)) acc in
      if n / base =? 0 then acc' else render_digits base fuel' (n / base) acc'
  end.

(** A number has no more digits (in a base of at least two) than bits. *)
Definition digits (base : Z) (n : Z) : string :=
  render_digits base (S (Z.to_nat (Z.log2 n))) n "".

Fixpoint zeros (k : nat) : string :=
  match k with
  | O => ""
  | S k' => String "0" (zeros k')
  end.

(** Zero padding of a format specification [0w]: the sign comes first and the
    zeros fill what is left of the minimum width [w]. *)
Definition zero_pad (width : nat) (base : Z) (n : Z) : string :=
  let sign := if n <? 0 then "-" else "" in
  let body := digits base (Z.abs n) in
  (sign ++ zeros (width - String.length sign - String.length body) ++ body)%string.

(** [str(n)] and the replacement field [{n}]. *)
Definition py_str (n : Z) : string := zero_pad 0 10 n.

(** The replacement field [{n:02d}]. *)
Definition format_02d (n : Z) : string := zero_pad 2 10 n.

(** The replacement field [{n:06X}]. *)
Definition format_06X (n : Z) : string := zero_pad 6 16 n.

(** Reading a rendered number back: the value of a digit, and of a string of
    digits in some base ([None] when a character is no digit of the base). *)
Definition digit_value (c : ascii) : option Z :=
  let k := Z.of_nat (nat_of_ascii c) in
  if (48 <=? k) && (k <=? 57) then Some (k - 48)
  else if (65 <=? k) && (k <=? 70) then Some (k - 55)
  else None.

Fixpoint parse_digits (base : Z) (acc : Z) (s : string) : option Z :=
  match s with
  | EmptyString => Some acc
  | String c s' =>
      match digit_value c with
      | Some d => if d <? base then parse_digits base (base * acc + d) s' else None
      | None => None
      end
  end.

(** *** Floats

    A float is modelled by the real number it stands for; what the float
    arithmetic makes of the exact result of an operation is the board's
    business ([float_round] below).  [int(x)] truncates towards zero;
    [round(x)] rounds to the nearest integer, ties to the even one ([round]
    is not called by the scripts, it is here to compare [int] with). *)

Definition py_int (x : R) : Z :=
  if Rle_dec 0 x then Int_part x else (- Int_part (- x))%Z.

Definition py_round (x : R) : Z :=
  let f := Int_part x in
  if Rlt_dec (frac_part x) (1 / 2) then f
  else if Rlt_dec (1 / 2) (frac_part x) then f + 1
  else if Z.even f then f else f + 1.

(** *** Lists

    [l[i]] for a Python list: negative indices count from the end, anything
    outside raises [IndexError]. *)
Definition py_getitem {A} (l : list A) (i : Z) : option A :=
  let n := Z.of_nat (length l) in
  if (0 <=? i) && (i <? n) then l !! Z.to_nat i
  else if (- n <=? i) && (i <? 0) then l !! Z.to_nat (n + i)
  else None.

(** ** Exceptions

    The two classes the scripts tell apart: the user interrupt, and every
    [Exception] with the message [str(e)] prints. *)
Inductive exn : Type :=
  | KeyboardInterrupt
  | Exception (msg : string).

Inductive Res (A : Type) : Type :=
  | Ok (a : A)
  | Raise (e : exn).
Arguments Ok {A} a.
Arguments Raise {A} e.

(** ** The board *)

(** Modelled from the spec: a text label, made from a position, a text, a
    font, a colour and a rotation, of which [setText] and [setColor]
    overwrite two. *)
Record TextBox : Type := mkTextBox {
  box_x : Z;
  box_y : Z;
  box_text : string;
  box_font : string;
  box_color : Z;
  box_rotate : Z
}.

Inductive Button : Type := BtnA | BtnB | BtnC.

(** What the board shows or does besides the labels, in the order it happens
    (latest first).  [time.sleep] takes seconds as a float: the three
    durations the scripts use, 0.1, 0.5 and 1, are kept in milliseconds. *)
Inductive Event : Type :=
  | EvPrint (line : string)
  | EvSleep (ms : Z)
  | EvClear
  | EvRect (x y w h color fill : Z).

(** Modelled from the spec: the firmware modules [m5stack], [m5ui], [time]
    and [urandom], which the scripts import and the repository does not
    hold; the spec lists what they offer (a random source, a clock, three
    buttons, a screen, text labels, the console).  What a call returns is
    up to the board, and any call may raise.  Calls are numbered as they
    are made (the [clock] of the state): [fault t] is the exception call
    number [t] raises, if any; the next four fields are what the call
    returns when it is the one made at [t].

    The floats are the board's as well (single precision on one firmware,
    double on another): [float_round x] is the float its arithmetic gives
    for the exact result [x] of an operation, of a conversion or of a
    literal, and [math_sin] is [math.sin].  They are not numbered as calls:
    they change nothing and, on the finite floats the scripts meet, do not
    raise. *)
Record Env : Type := mkEnv {
  fault : nat -> option exn;
  getrandbits_at : nat -> Z -> Z;
  isPressed_at : nat -> Button -> bool;
  ticks_ms_at : nat -> Z;
  ticks_diff_of : Z -> Z -> Z;
  float_round : R -> R;
  math_sin : R -> R
}.

(** Modelled from the spec: the random source returns, asked for [n] bits,
    an unsigned integer in [[0, 2^n)]. *)
Definition rng_ok (env : Env) : Prop :=
  forall t n, 0 <= n -> 0 <= getrandbits_at env t n < 2 ^ n.

(** Float arithmetic: the conversion of an integer, a literal, a product
    and a sum are exact results, rounded.  Python raises [OverflowError]
    where an integer is too large for a float; the conversion here is
    total, and what is proved of it is for integers up to [2 ^ 60]. *)
Definition float_of_int (env : Env) (n : Z) : R := float_round env (IZR n).

Definition float_lit (env : Env) (x : R) : R := float_round env x.

Definition float_mul (env : Env) (a b : R) : R := float_round env (a * b).

Definition float_add (env : Env) (a b : R) : R := float_round env (a + b).

(** What binary floating point with rounding to nearest gives, in a format
    of unit roundoff [eps] (2^-24 in single precision, 2^-53 in double,
    2^-20 at most here): rounding keeps the order, leaves the integers up to 1024 as they are,
    and moves a number below [2 ^ 64] by [eps] times its magnitude at
    most (by [eps] at most below 1); [math.sin] returns a float between -1
    and 1, no further than [2 * eps] from the sine. *)
Definition float_ok (eps : R) (env : Env) : Prop :=
  (0 <= eps <= 1 / 2 ^ 20)%R /\
  (forall x y, (x <= y)%R -> (float_round env x <= float_round env y)%R) /\
  (forall n, Z.abs n <= 1024 -> float_round env (IZR n) = IZR n) /\
  (forall x, (Rabs x <= 2 ^ 64)%R ->
             (Rabs (float_round env x - x) <= eps * Rmax 1 (Rabs x))%R) /\
  (forall x, (-1 <= math_sin env x <= 1)%R) /\
  (forall x, (Rabs x <= 2 ^ 64)%R ->
             (Rabs (math_sin env x - sin x) <= 2 * eps)%R).

(** The state a script runs in: the board, and [count], the one local
    variable of [main] that is assigned inside the loop and read again in a
    later iteration. *)
Record State : Type := mkState {
  clock : nat;
  screen : Z;
  boxes : list TextBox;
  trace : list Event;
  count : Z
}.

Definition boot : State :=
  {| clock := 0; screen := 0; boxes := []; trace := []; count := 0 |}.

(** ** The monad of scripts *)

Definition M (A : Type) : Type := State -> Res A * State.

Definition ret {A} (a : A) : M A := fun s => (Ok a, s).

Definition raise {A} (e : exn) : M A := fun s => (Raise e, s).

Definition bind {A B} (m : M A) (k : A -> M B) : M B :=
  fun s =>
    match m s with
    | (Ok a, s') => k a s'
    | (Raise e, s') => (Raise e, s')
    end.

Notation "'do' x <- m ;; k" := (bind m (fun x => k))
  (at level 10, x name, m at level 99, k at level 200).
Notation "m ;; k" := (bind m (fun _ => k))
  (at level 100, k at level 200, right associativity).

(** [try: m except e: h e]; a handler that declines ([None]) lets the
    exception through. *)
Definition try_except {A} (m : M A) (h : exn -> option (M A)) : M A :=
  fun s =>
    match m s with
    | (Ok a, s') => (Ok a, s')
    | (Raise e, s') =>
        match h e with
        | Some k => k s'
        | None => (Raise e, s')
        end
    end.

(** Assignments to one field of the state. *)
Definition tick (s : State) : State :=
  {| clock := S (clock s); screen := screen s; boxes := boxes s;
     trace := trace s; count := count s |}.

Definition put_screen (c : Z) (s : State) : State :=
  {| clock := clock s; screen := c; boxes := boxes s;
     trace := trace s; count := count s |}.

Definition put_boxes (bs : list TextBox) (s : State) : State :=
  {| clock := clock s; screen := screen s; boxes := bs;
     trace := trace s; count := count s |}.

Definition log (ev : Event) (s : State) : State :=
  {| clock := clock s; screen := screen s; boxes := boxes s;
     trace := ev :: trace s; count := count s |}.

Definition put_count (c : Z) (s : State) : State :=
  {| clock := clock s; screen := screen s; boxes := boxes s;
     trace := trace s; count := c |}.

Definition modify (f : State -> State) : M unit := fun s => (Ok tt, f s).

Definition get_count : M Z := fun s => (Ok (count s), s).

Definition set_count (c : Z) : M unit := modify (put_count c).

Definition emit (ev : Event) : M unit := modify (log ev).

Definition with_text (txt : string) (b : TextBox) : TextBox :=
  {| box_x := box_x b; box_y := box_y b; box_text := txt;
     box_font := box_font b; box_color := box_color b;
     box_rotate := box_rotate b |}.

Definition with_color (c : Z) (b : TextBox) : TextBox :=
  {| box_x := box_x b; box_y := box_y b; box_text := box_text b;
     box_font := box_font b; box_color := c; box_rotate := box_rotate b |}.

(** A text box is known by its position in [boxes]; a handle that names no
    box is an error of the caller (none of the scripts makes it). *)
Definition update_box (h : nat) (f : TextBox -> TextBox) : M unit :=
  fun s =>
    match boxes s !! h with
    | Some _ => (Ok tt, put_boxes (alter f h (boxes s)) s)
    | None => (Raise (Exception "no such text box"), s)
    end.

(** ** Firmware calls *)

Section Firmware.

Variable env : Env.

(** Every call into the firmware takes its number from the clock and
    raises what the environment has in store for that number. *)
Definition call : M nat :=
  fun s =>
    match fault env (clock s) with
    | Some e => (Raise e, tick s)
    | None => (Ok (clock s), tick s)
    end.

(** Modelled from the spec: console output, [print(line)]. *)
Definition print (line : string) : M unit := call ;; emit (EvPrint line).

(** Modelled from the spec: a blocking delay, [time.sleep]. *)
Definition sleep_ms (ms : Z) : M unit := call ;; emit (EvSleep ms).

(** Modelled from the spec: the screen's [clear()], [lcd.clear]. *)
Definition lcd_clear : M unit := call ;; emit EvClear.

(** Modelled from the spec: the screen's
    [drawRectangle(x, y, width, height, borderColor, fillColor)],
    [lcd.rect]. *)
Definition lcd_rect (x y w h color fill : Z) : M unit :=
  call ;; emit (EvRect x y w h color fill).

(** Modelled from the spec: the screen's [fillBackground(color)]. *)
Definition setScreenColor (c : Z) : M unit := call ;; modify (put_screen c).

(** Modelled from the spec: the label constructor
    [create(x, y, initialText, font, color, rotation) -> handle].  A new
    text box goes behind the ones there are. *)
Definition M5TextBox (x y : Z) (txt font : string) (color rotate : Z) : M nat :=
  call ;;
  fun s =>
    (Ok (length (boxes s)),
     put_boxes (boxes s ++ [mkTextBox x y txt font color rotate]) s).

(** Modelled from the spec: [handle.setText(string)]. *)
Definition setText (h : nat) (txt : string) : M unit :=
  call ;; update_box h (with_text txt).

(** Modelled from the spec: [handle.setColor(colorValue)]. *)
Definition setColor (h : nat) (c : Z) : M unit :=
  call ;; update_box h (with_color c).

(** Modelled from the spec: [getRandomBits(n)], [urandom.getrandbits]. *)
Definition getrandbits (n : Z) : M Z :=
  do t <- call ;; ret (getrandbits_at env t n).

(** Modelled from the spec: a button's [isPressed() -> boolean], a read of
    the state of the hardware at the time of the call. *)
Definition isPressed (b : Button) : M bool :=
  do t <- call ;; ret (isPressed_at env t b).

(** Modelled from the spec: the clock's [nowTicksMs() -> integer]. *)
Definition ticks_ms : M Z := do t <- call ;; ret (ticks_ms_at env t).

(** Modelled from the spec: the clock's
    [tickDifference(a, b) -> integer milliseconds]. *)
Definition ticks_diff (a b : Z) : M Z := call ;; ret (ticks_diff_of env a b).

(** [import math] inside the loop: a look-up of the loaded module. *)
Definition import_math : M unit := call ;; ret tt.

End Firmware.

(** ** Loops *)

(** What one pass of a [while True] body asks for. *)
Inductive Ctl : Type := Continue | Break.

(** How a run is found after [fuel] passes: the loop was left by [break]
    and [main] returned, or it is still [Looping].  A run that an exception
    ended is a [Raise] of the monad. *)
Inductive Stop : Type := Interrupted | Looping.

Fixpoint while_true (fuel : nat) (pass : M Ctl) : M Stop :=
  match fuel with
  | O => ret Looping
  | S fuel' =>
      do c <- pass ;;
      match c with
      | Break => ret Interrupted
      | Continue => while_true fuel' pass
      end
  end.

(** ** [examples/flash-sample.py] *)

Module Extended.

(** The six labels [init_ui] returns. *)
Record UI : Type := mkUI {
  title : nat;
  subtitle : nat;
  status : nat;
  counter : nat;
  time_display : nat;
  color_info : nat
}.

Definition title_colors : list Z :=
  [0xFFFFFF; 0xFF0000; 0x00FF00; 0x0000FF; 0xFFFF00; 0xFF00FF; 0x00FFFF].

(** [f"Time: {minutes:02d}:{seconds:02d}"] of the elapsed seconds. *)
Definition time_text (elapsed : Z) : string :=
  let minutes := elapsed / 60 in
  let seconds := elapsed mod 60 in
  ("Time: " ++ format_02d minutes ++ ":" ++ format_02d seconds)%string.

(** [f"RGB: 0x{bg_color:06X}"]. *)
Definition color_text (bg_color : Z) : string :=
  ("RGB: 0x" ++ format_06X bg_color)%string.

(** [150 * (math.sin(count * 0.2) + 1)], in floats: the integers [count],
    [1] and [150] are converted where they meet a float. *)
Definition progress_float (env : Env) (count : Z) : R :=
  float_mul env (float_of_int env 150)
    (float_add env
       (math_sin env
          (float_mul env (float_of_int env count) (float_lit env (2 / 10))))
       (float_of_int env 1)).

(** [int(150 * (math.sin(count * 0.2) + 1))]. *)
Definition progress (env : Env) (count : Z) : Z :=
  py_int (progress_float env count).

Section Script.

Variable env : Env.

Definition random_color : M Z :=
  do r0 <- getrandbits env 5 ;;
  let r := Z.shiftl r0 11 in
  do g0 <- getrandbits env 6 ;;
  let g := Z.shiftl g0 5 in
  do b <- getrandbits env 5 ;;
  ret (Z.lor (Z.lor r g) b).

Definition init_ui : M UI :=
  do title <- M5TextBox env 10 20 "M5STACK DEMO" "FONT_DejaVu24" 0xFFFFFF 0 ;;
  do subtitle <- M5TextBox env 15 50 "Random Color Background" "FONT_Default" 0xFFFF00 0 ;;
  do status <- M5TextBox env 10 80 "Status: Running" "FONT_Default" 0x00FF00 0 ;;
  do counter <- M5TextBox env 10 110 "Count: 0" "FONT_DejaVu18" 0x00FFFF 0 ;;
  do time_display <- M5TextBox env 10 140 "Time: 00:00" "FONT_Default" 0xFFFFFF 0 ;;
  do color_info <- M5TextBox env 10 170 "RGB: 0x000000" "FONT_Default" 0xFFFFFF 0 ;;
  lcd_rect env 10 200 300 20 0x333333 0x333333 ;;
  ret (mkUI title subtitle status counter time_display color_info).

Variable ui : UI.
Variable start_time : Z.

(** Lines 60-61. *)
Definition paint_background : M Z :=
  do bg_color <- random_color ;;
  setScreenColor env bg_color ;;
  ret bg_color.

(** Lines 64-65. *)
Definition update_counter : M unit :=
  do c <- get_count ;;
  set_count (c + 1) ;;
  do c <- get_count ;;
  setText env (counter ui) ("Count: " ++ py_str c).

(** Lines 68-71. *)
Definition update_time : M unit :=
  do now <- ticks_ms env ;;
  do diff <- ticks_diff env now start_time ;;
  let elapsed := diff / 1000 in
  setText env (time_display ui) (time_text elapsed).

(** Line 74. *)
Definition update_color_info (bg_color : Z) : M unit :=
  setText env (color_info ui) (color_text bg_color).

(** Lines 77-80. *)
Definition draw_progress : M unit :=
  import_math env ;;
  do c <- get_count ;;
  let progress := progress env c in
  lcd_rect env 10 200 300 20 0x333333 0x333333 ;;
  lcd_rect env 12 202 progress 16 0x00FF88 0x00FF88.

(** Lines 83-88. *)
Definition blink_status : M unit :=
  do c <- get_count ;;
  if c mod 4 <? 2 then
    setText env (status ui) "Status: ACTIVE" ;;
    setColor env (status ui) 0x00FF00
  else
    setText env (status ui) "Status: READY" ;;
    setColor env (status ui) 0x0088FF.

(** Lines 91-92. *)
Definition cycle_title : M unit :=
  do c <- get_count ;;
  match py_getitem title_colors (c mod Z.of_nat (length title_colors)) with
  | Some color => setColor env (title ui) color
  | None => raise (Exception "list index out of range")
  end.

(** Lines 95-109. *)
Definition check_buttons : M unit :=
  do a <- isPressed env BtnA ;;
  if a then
    setText env (subtitle ui) "Button A Pressed!" ;;
    setColor env (subtitle ui) 0xFF0000 ;;
    sleep_ms env 100
  else
    do b <- isPressed env BtnB ;;
    if b then
      setText env (subtitle ui) "Button B Pressed!" ;;
      setColor env (subtitle ui) 0x00FF00 ;;
      sleep_ms env 100
    else
      do c <- isPressed env BtnC ;;
      if c then
        setText env (subtitle ui) "Button C Pressed!" ;;
        setColor env (subtitle ui) 0x0000FF ;;
        sleep_ms env 100
      else
        setText env (subtitle ui) "Random Color Background" ;;
        setColor env (subtitle ui) 0xFFFF00.

(** The [try] block, lines 59-112. *)
Definition body : M unit :=
  do bg_color <- paint_background ;;
  update_counter ;;
  update_time ;;
  update_color_info bg_color ;;
  draw_progress ;;
  blink_status ;;
  cycle_title ;;
  check_buttons ;;
  sleep_ms env 500.

(** Lines 117-121. *)
Definition on_error (msg : string) : M unit :=
  print env ("Error occurred: " ++ msg) ;;
  setText env (status ui) "Status: ERROR" ;;
  setColor env (status ui) 0xFF0000 ;;
  sleep_ms env 1000.

(** One pass of the loop, lines 58-121. *)
Definition iteration : M Ctl :=
  try_except (body ;; ret Continue)
    (fun e =>
       match e with
       | KeyboardInterrupt =>
           Some (print env "Program interrupted by user" ;; ret Break)
       | Exception msg => Some (on_error msg ;; ret Continue)
       end).

End Script.

(** [main()], its loop cut off after [fuel] passes. *)
Definition main (env : Env) (fuel : nat) : M Stop :=
  print env "M5Stack Flash Sample Started!" ;;
  do ui <- init_ui env ;;
  set_count 0 ;;
  do start_time <- ticks_ms env ;;
  while_true fuel (iteration env ui start_time).

(** The script: line 12, then [main()]. *)
Definition script (env : Env) (fuel : nat) : M Stop :=
  lcd_clear env ;;
  main env fuel.

End Extended.

(** ** [examples/flash-sample-simple.py] *)

Module Simple.

Record UI : Type := mkUI {
  title : nat;
  info : nat;
  counter : nat
}.

Section Script.

Variable env : Env.

Definition random_color : M Z := getrandbits env 16.

Definition init_ui : M UI :=
  do title <- M5TextBox env 50 50 "HELLO M5STACK" "FONT_DejaVu24" 0xFFFFFF 0 ;;
  do info <- M5TextBox env 80 100 "Random Colors!" "FONT_Default" 0x00FFFF 0 ;;
  do counter <- M5TextBox env 100 150 "0" "FONT_DejaVu18" 0xFFFF00 0 ;;
  ret (mkUI title info counter).

Variable ui : UI.

(** Lines 28-29. *)
Definition paint_background : M Z :=
  do bg_color <- random_color ;;
  setScreenColor env bg_color ;;
  ret bg_color.

(** Lines 32-33. *)
Definition update_counter : M unit :=
  do c <- get_count ;;
  set_count (c + 1) ;;
  do c <- get_count ;;
  setText env (counter ui) (py_str c).

(** The [try] block, lines 27-39. *)
Definition body : M unit :=
  paint_background ;;
  update_counter ;;
  do c1 <- random_color ;;
  setColor env (title ui) c1 ;;
  do c2 <- random_color ;;
  setColor env (info ui) c2 ;;
  sleep_ms env 1000.

(** One pass of the loop, lines 26-42: only the interrupt is handled. *)
Definition iteration : M Ctl :=
  try_except (body ;; ret Continue)
    (fun e =>
       match e with
       | KeyboardInterrupt => Some (ret Break)
       | Exception _ => None
       end).

End Script.

Definition main (env : Env) (fuel : nat) : M Stop :=
  print env "Simple Flash Sample Started!" ;;
  do ui <- init_ui env ;;
  set_count 0 ;;
  while_true fuel (iteration env ui).

Definition script (env : Env) (fuel : nat) : M Stop := main env fuel.

End Simple.

(** ** Vocabulary of the properties *)

(** No call numbered [t] to [t + n - 1] raises. *)
Definition quiet (env : Env) (t n : nat) : Prop :=
  forall t', (t <= t' < t + n)%nat -> fault env t' = None.

(** [keeps f m]: running [m] does not change [f] of the state, whether [m]
    returns or raises. *)
Definition keeps {X A} (f : State -> X) (m : M A) : Prop :=
  forall s, f (snd (m s)) = f s.

(** What a label shows: its text and its colour. *)
Definition label (s : State) (h : nat) : option (string * Z) :=
  (fun b => (box_text b, box_color b)) <$> boxes s !! h.

(** The labels of the extended script are six different text boxes of the
    board. *)
Definition ui_handles (ui : Extended.UI) : list nat :=
  [Extended.title ui; Extended.subtitle ui; Extended.status ui;
   Extended.counter ui; Extended.time_display ui; Extended.color_info ui].

Definition ui_ok (ui : Extended.UI) (s : State) : Prop :=
  NoDup (ui_handles ui) /\
  Forall (fun h => (h < length (boxes s))%nat) (ui_handles ui).

(** The palette the title is said to cycle through, as the specification
    lists it. *)
Definition palette : list Z :=
  [0xFFFFFF; 0xFF0000; 0x00FF00; 0x0000FF; 0xFFFF00; 0xFF00FF; 0x00FFFF].

(** RGB565, read back by shifting and masking. *)
Definition red_of (c : Z) : Z := Z.land (Z.shiftr c 11) 0x1F.
Definition green_of (c : Z) : Z := Z.land (Z.shiftr c 5) 0x3F.
Definition blue_of (c : Z) : Z := Z.land c 0x1F.

(** The button a poll that starts with call [t] settles on: the first of A,
    B and C, asked in this order by the calls [t], [t + 1] and [t + 2], that
    reads pressed. *)
Definition first_pressed (env : Env) (t : nat) : option Button :=
  if isPressed_at env t BtnA then Some BtnA
  else if isPressed_at env (S t) BtnB then Some BtnB
  else if isPressed_at env (S (S t)) BtnC then Some BtnC
  else None.

Definition subtitle_for (hit : option Button) : string * Z :=
  match hit with
  | Some BtnA => ("Button A Pressed!", 0xFF0000)
  | Some BtnB => ("Button B Pressed!", 0x00FF00)
  | Some BtnC => ("Button C Pressed!", 0x0000FF)
  | None => ("Random Color Background", 0xFFFF00)
  end.

Definition debounce (hit : option Button) : list Event :=
  match hit with
  | Some _ => [EvSleep 100]
  | None => []
  end.

(** The two phases of the status blink. *)
Definition status_active : string * Z := ("Status: ACTIVE", 0x00FF00).
Definition status_ready : string * Z := ("Status: READY", 0x0088FF).
Definition status_error : string * Z := ("Status: ERROR", 0xFF0000).

(** ** Sample runs *)

(** A board on which nothing goes wrong: button B is held down, the clock
    advances by 12.5 s per call, and the floats are exact. *)
Definition env_calm : Env :=
  {| fault := fun _ => None;
     getrandbits_at := fun t n => (Z.of_nat t * 7919 + 12345) mod 2 ^ n;
     isPressed_at := fun _ b => match b with BtnB => true | _ => false end;
     ticks_ms_at := fun t => Z.of_nat t * 12500;
     ticks_diff_of := fun a b => a - b;
     float_round := fun x => x;
     math_sin := sin |}.

(** The same board, except that call [t] raises [e]. *)
Definition env_fault_at (t : nat) (e : exn) : Env :=
  {| fault := fun t' => if (t' =? t)%nat then Some e else None;
     getrandbits_at := getrandbits_at env_calm;
     isPressed_at := isPressed_at env_calm;
     ticks_ms_at := ticks_ms_at env_calm;
     ticks_diff_of := ticks_diff_of env_calm;
     float_round := float_round env_calm;
     math_sin := math_sin env_calm |}.

(** The same board again, with two calls that raise. *)
Definition env_two_faults (t1 : nat) (e1 : exn) (t2 : nat) (e2 : exn) : Env :=
  {| fault := fun t' =>
       if (t' =? t1)%nat then Some e1
       else if (t' =? t2)%nat then Some e2
       else None;
     getrandbits_at := getrandbits_at env_calm;
     isPressed_at := isPressed_at env_calm;
     ticks_ms_at := ticks_ms_at env_calm;
     ticks_diff_of := ticks_diff_of env_calm;
     float_round := float_round env_calm;
     math_sin := math_sin env_calm |}.

(** The extended script at the top of its loop: ten calls made, six labels. *)
Definition ext_ui : Extended.UI := Extended.mkUI 0 1 2 3 4 5.
Definition ext_start : Z := ticks_ms_at env_calm 9.
Definition ext_entry : State := snd (Extended.script env_calm 0 boot).

(** The simple script at the top of its loop: four calls made, three labels. *)
Definition simple_ui : Simple.UI := Simple.mkUI 0 1 2.
Definition simple_entry : State := snd (Simple.script env_calm 0 boot).

(** ** Vocabulary of the further properties *)

(** The labels of the simple script are three different text boxes. *)
Definition simple_handles (ui : Simple.UI) : list nat :=
  [Simple.title ui; Simple.info ui; Simple.counter ui].

Definition simple_ui_ok (ui : Simple.UI) (s : State) : Prop :=
  NoDup (simple_handles ui) /\
  Forall (fun h => (h < length (boxes s))%nat) (simple_handles ui).

(** What [setText] and [setColor] leave of a text box. *)
Definition geometry (b : TextBox) : Z * Z * string * Z :=
  (box_x b, box_y b, box_font b, box_rotate b).

(** The six labels of [init_ui], as it makes them. *)
Definition initial_labels : list TextBox :=
  [mkTextBox 10 20 "M5STACK DEMO" "FONT_DejaVu24" 0xFFFFFF 0;
   mkTextBox 15 50 "Random Color Background" "FONT_Default" 0xFFFF00 0;
   mkTextBox 10 80 "Status: Running" "FONT_Default" 0x00FF00 0;
   mkTextBox 10 110 "Count: 0" "FONT_DejaVu18" 0x00FFFF 0;
   mkTextBox 10 140 "Time: 00:00" "FONT_Default" 0xFFFFFF 0;
   mkTextBox 10 170 "RGB: 0x000000" "FONT_Default" 0xFFFFFF 0].

(** A result that says the user interrupt happened: the exception itself,
    or a value that [stop] marks (the [Break] of a pass, the return of
    [main]). *)
Definition interrupted {A} (stop : A -> bool) (r : Res A) : Prop :=
  match r with
  | Ok a => stop a = true
  | Raise KeyboardInterrupt => True
  | Raise (Exception _) => False
  end.

(** [signalled env stop m]: [m] only moves the clock forward, and a result
    of [m] says the user interrupt happened only if one of the calls [m]
    made raised it. *)
Definition signalled (env : Env) {A} (stop : A -> bool) (m : M A) : Prop :=
  forall s,
    (clock s <= clock (snd (m s)))%nat /\
    (interrupted stop (fst (m s)) ->
     exists t, (clock s <= t < clock (snd (m s)))%nat /\
               fault env t = Some KeyboardInterrupt).

Definition no_stop {A} (a : A) : bool := false.

Definition is_break (c : Ctl) : bool :=
  match c with Break => true | Continue => false end.

Definition is_interrupted (r : Stop) : bool :=
  match r with Interrupted => true | Looping => false end.

(** The columns a rectangle covers: its left edge, and the first column to
    the right of it. *)
Definition rect_span (e : Event) : option (Z * Z) :=
  match e with
  | EvRect x _ w _ _ _ => Some (x, x + w)
  | _ => None
  end.

(** * Properties *)

(** ** Rendering integers *)

Lemma string_length_app (s1 s2 : string) :
  String.length (s1 ++ s2) = (String.length s1 + String.length s2)%nat.
Proof. induction s1 as [|c s1 IH]; simpl; [reflexivity | now rewrite IH]. Qed.

Lemma string_app_assoc (s1 s2 s3 : string) :
  ((s1 ++ s2) ++ s3 = s1 ++ (s2 ++ s3))%string.
Proof. induction s1 as [|c s1 IH]; simpl; [reflexivity | now rewrite IH]. Qed.

Lemma zeros_length (k : nat) : String.length (zeros k) = k.
Proof. induction k as [|k IH]; simpl; [reflexivity | now rewrite IH]. Qed.

Lemma digit_value_char (d : Z) :
  0 <= d < 16 -> digit_value (digit_char d) = Some d.
Proof.
  intros Hd.
  assert (H : d = 0 \/ d = 1 \/ d = 2 \/ d = 3 \/ d = 4 \/ d = 5 \/ d = 6 \/
              d = 7 \/ d = 8 \/ d = 9 \/ d = 10 \/ d = 11 \/ d = 12 \/
              d = 13 \/ d = 14 \/ d = 15) by lia.
  repeat (destruct H as [-> | H]; [reflexivity |]).
  now subst d.
Qed.

Section Digits.

Variable base : Z.
Hypothesis base_lo : 2 <= base.
Hypothesis base_hi : base <= 16.

Lemma render_digits_S (fuel : nat) (n : Z) (acc : string) :
  render_digits base (S fuel) n acc =
    if n / base =? 0 then String (digit_char (n mod base)) acc
    else render_digits base fuel (n / base) (String (digit_char (n mod base)) acc).
Proof. reflexivity. Qed.

Lemma render_digits_acc (fuel : nat) :
  forall n acc,
    render_digits base fuel n acc = (render_digits base fuel n "" ++ acc)%string.
Proof.
  induction fuel as [|fuel IH]; intros n acc; simpl; [reflexivity |].
  destruct (n / base =? 0); [reflexivity |].
  rewrite IH, (IH _ (String _ "")), string_app_assoc. reflexivity.
Qed.

Lemma parse_digits_app (s1 s2 : string) :
  forall a,
    parse_digits base a (s1 ++ s2) =
    match parse_digits base a s1 with
    | Some a' => parse_digits base a' s2
    | None => None
    end.
Proof.
  induction s1 as [|c s1 IH]; intros a; simpl; [reflexivity |].
  destruct (digit_value c) as [d|]; [| reflexivity].
  destruct (d <? base); [apply IH | reflexivity].
Qed.

Lemma parse_digits_zeros (k : nat) (s : string) :
  parse_digits base 0 (zeros k ++ s) = parse_digits base 0 s.
Proof.
  induction k as [|k IH]; [reflexivity |].
  cbn [zeros String.append parse_digits].
  change (digit_value "0") with (Some 0). cbv beta iota.
  destruct (Z.ltb_spec 0 base) as [_ | Hbad]; [| lia].
  rewrite Z.mul_0_r. exact IH.
Qed.

(** Enough fuel renders a number that reads back as itself. *)
Lemma parse_render_digits (fuel : nat) :
  forall n, 0 <= n < 2 ^ Z.of_nat fuel ->
    parse_digits base 0 (render_digits base fuel n "") = Some n.
Proof.
  induction fuel as [|fuel IH]; intros n Hn.
  - simpl in *. f_equal. lia.
  - rewrite render_digits_S.
    assert (Hmod : 0 <= n mod base < base) by (apply Z.mod_pos_bound; lia).
    assert (Hdv : digit_value (digit_char (n mod base)) = Some (n mod base))
      by (apply digit_value_char; lia).
    assert (Hdivmod : n = base * (n / base) + n mod base)
      by (apply Z.div_mod; lia).
    destruct (Z.eqb_spec (n / base) 0) as [Hz | Hnz].
    + cbn [parse_digits]. rewrite Hdv. cbv beta iota.
      destruct (Z.ltb_spec (n mod base) base) as [_ | Hbad]; [| lia].
      f_equal. lia.
    + rewrite render_digits_acc, parse_digits_app, IH.
      * cbn [parse_digits]. rewrite Hdv. cbv beta iota.
        destruct (Z.ltb_spec (n mod base) base) as [_ | Hbad]; [| lia].
        f_equal. lia.
      * rewrite Nat2Z.inj_succ, Z.pow_succ_r in Hn by lia.
        split; [apply Z.div_pos; lia |].
        apply Z.div_lt_upper_bound; [lia |]. nia.
Qed.

Lemma parse_digits_digits (n : Z) :
  0 <= n -> parse_digits base 0 (digits base n) = Some n.
Proof.
  intros Hn. unfold digits. apply parse_render_digits.
  split; [assumption |].
  destruct (Z.eq_dec n 0) as [-> | Hnz]; [reflexivity |].
  rewrite Nat2Z.inj_succ, Z2Nat.id by apply Z.log2_nonneg.
  apply Z.log2_spec. lia.
Qed.

(** A number below [base ^ k] has at most [k] digits, and at least one. *)
Lemma render_digits_length (fuel : nat) :
  forall (k : nat) n, (1 <= k)%nat -> 0 <= n < base ^ Z.of_nat k ->
    (String.length (render_digits base (S fuel) n "") <= k)%nat.
Proof.
  induction fuel as [|fuel IH]; intros k n Hk Hn.
  - simpl. destruct (n / base =? 0); simpl; lia.
  - rewrite render_digits_S.
    destruct (Z.eqb_spec (n / base) 0) as [Hz | Hnz]; [simpl; lia |].
    rewrite render_digits_acc, string_length_app. cbn [String.length].
    destruct k as [|[|k]]; [lia | |].
    + exfalso. apply Hnz. apply Z.div_small.
      change (Z.of_nat 1) with 1 in Hn. rewrite Z.pow_1_r in Hn. lia.
    + enough (String.length (render_digits base (S fuel) (n / base) "") <= S k)%nat
        by lia.
      apply IH; [lia |].
      rewrite (Nat2Z.inj_succ (S k)), Z.pow_succ_r in Hn by lia.
      split; [apply Z.div_pos; lia |].
      apply Z.div_lt_upper_bound; [lia |]. lia.
Qed.

Lemma digits_length_le (k : nat) (n : Z) :
  (1 <= k)%nat -> 0 <= n < base ^ Z.of_nat k ->
  (1 <= String.length (digits base n) <= k)%nat.
Proof.
  intros Hk Hn. unfold digits. split.
  - rewrite render_digits_S. destruct (n / base =? 0); [simpl; lia |].
    rewrite render_digits_acc, string_length_app. simpl. lia.
  - now apply render_digits_length.
Qed.

(** [{n:0w}] of a non-negative [n]: as wide as asked for at least, and the
    same number when read back. *)
Lemma zero_pad_nonneg (width : nat) (n : Z) :
  0 <= n ->
  zero_pad width base n =
    (zeros (width - String.length (digits base n)) ++ digits base n)%string.
Proof.
  intros Hn. unfold zero_pad.
  replace (n <? 0) with false by (symmetry; apply Z.ltb_ge; lia).
  rewrite Z.abs_eq by lia. simpl. now rewrite Nat.sub_0_r.
Qed.

Lemma parse_zero_pad (width : nat) (n : Z) :
  0 <= n -> parse_digits base 0 (zero_pad width base n) = Some n.
Proof.
  intros Hn. rewrite zero_pad_nonneg, parse_digits_zeros by assumption.
  now apply parse_digits_digits.
Qed.

Lemma zero_pad_length (width : nat) (n : Z) :
  0 <= n ->
  String.length (zero_pad width base n) =
    Nat.max width (String.length (digits base n)).
Proof.
  intros Hn. rewrite zero_pad_nonneg, string_length_app, zeros_length by assumption.
  lia.
Qed.

End Digits.

(** ** The definitions at work *)

Example format_02d_pads : format_02d 5 = "05".
Proof. reflexivity. Qed.

Example format_02d_keeps_three_digits : format_02d 123 = "123".
Proof. reflexivity. Qed.

Example format_02d_sign : format_02d (-5) = "-5".
Proof. reflexivity. Qed.

Example format_06X_sign : format_06X (-171) = "-000AB".
Proof. reflexivity. Qed.

Example py_str_zero : py_str 0 = "0".
Proof. reflexivity. Qed.

Example py_str_negative : py_str (-120) = "-120".
Proof. reflexivity. Qed.

Example parse_hex : parse_digits 16 0 "00FF88" = Some 0x00FF88.
Proof. reflexivity. Qed.

Example parse_hex_lower_case : parse_digits 16 0 "00ff88" = None.
Proof. reflexivity. Qed.

Example py_getitem_from_the_end : py_getitem [10; 20; 30] (-1) = Some 30.
Proof. reflexivity. Qed.

Example py_getitem_outside : py_getitem [10; 20; 30] 3 = None.
Proof. reflexivity. Qed.

(** Three passes of the simple script on the calm board. *)
Example simple_three_passes :
  Simple.script env_calm 3 boot =
    (Ok Looping,
     {| clock := 28; screen := 39653;
        boxes :=
          [mkTextBox 50 50 "HELLO M5STACK" "FONT_DejaVu24" 63410 0;
           mkTextBox 80 100 "Random Colors!" "FONT_Default" 13712 0;
           mkTextBox 100 150 "3" "FONT_DejaVu18" 0xFFFF00 0];
        trace := [EvSleep 1000; EvSleep 1000; EvSleep 1000;
                  EvPrint "Simple Flash Sample Started!"];
        count := 3 |}).
Proof. vm_compute. reflexivity. Qed.

(** The user interrupt at the top of the first pass of either script. *)
Example extended_interrupt :
  Extended.script (env_fault_at 10 KeyboardInterrupt) 5 boot =
    (Ok Interrupted,
     {| clock := 12; screen := 0; boxes := boxes ext_entry;
        trace := EvPrint "Program interrupted by user" :: trace ext_entry;
        count := 0 |}).
Proof. vm_compute. reflexivity. Qed.

Example simple_interrupt :
  Simple.script (env_fault_at 4 KeyboardInterrupt) 5 boot =
    (Ok Interrupted,
     {| clock := 5; screen := 0; boxes := boxes simple_entry;
        trace := trace simple_entry; count := 0 |}).
Proof. vm_compute. reflexivity. Qed.
(** ** Running scripts *)

Lemma bind_Ok {A B} (m : M A) (k : A -> M B) (s s' : State) (a : A) :
  m s = (Ok a, s') -> bind m k s = k a s'.
Proof. intros H. unfold bind. now rewrite H. Qed.

Lemma bind_assoc {A B C} (m : M A) (k : A -> M B) (k' : B -> M C) (s : State) :
  bind (bind m k) k' s = bind m (fun a => bind (k a) k') s.
Proof. unfold bind. destruct (m s) as [[a | e] s1]; reflexivity. Qed.

Lemma bind_Raise {A B} (m : M A) (k : A -> M B) (s s' : State) (e : exn) :
  m s = (Raise e, s') -> bind m k s = (Raise e, s').
Proof. intros H. unfold bind. now rewrite H. Qed.

Lemma try_except_Ok {A} (m : M A) (h : exn -> option (M A)) (s s' : State) (a : A) :
  m s = (Ok a, s') -> try_except m h s = (Ok a, s').
Proof. intros H. unfold try_except. now rewrite H. Qed.

Lemma try_except_Raise {A} (m : M A) (h : exn -> option (M A)) (s s' : State)
    (e : exn) :
  m s = (Raise e, s') ->
  try_except m h s = match h e with Some k => k s' | None => (Raise e, s') end.
Proof. intros H. unfold try_except. now rewrite H. Qed.

Section Calls.

Variable env : Env.

Lemma call_ok (s : State) :
  fault env (clock s) = None -> call env s = (Ok (clock s), tick s).
Proof. intros H. unfold call. now rewrite H. Qed.

Lemma update_box_ok (h : nat) (f : TextBox -> TextBox) (s : State) :
  (h < length (boxes s))%nat ->
  update_box h f s = (Ok tt, put_boxes (alter f h (boxes s)) s).
Proof.
  intros H. unfold update_box.
  destruct (lookup_lt_is_Some_2 _ _ H) as [b ->]. reflexivity.
Qed.

Lemma print_ok (line : string) (s : State) :
  fault env (clock s) = None ->
  print env line s = (Ok tt, log (EvPrint line) (tick s)).
Proof. intros H. unfold print. now rewrite (bind_Ok _ _ _ _ _ (call_ok s H)). Qed.

Lemma sleep_ms_ok (ms : Z) (s : State) :
  fault env (clock s) = None ->
  sleep_ms env ms s = (Ok tt, log (EvSleep ms) (tick s)).
Proof. intros H. unfold sleep_ms. now rewrite (bind_Ok _ _ _ _ _ (call_ok s H)). Qed.

Lemma lcd_clear_ok (s : State) :
  fault env (clock s) = None ->
  lcd_clear env s = (Ok tt, log EvClear (tick s)).
Proof. intros H. unfold lcd_clear. now rewrite (bind_Ok _ _ _ _ _ (call_ok s H)). Qed.

Lemma lcd_rect_ok (x y w h c f : Z) (s : State) :
  fault env (clock s) = None ->
  lcd_rect env x y w h c f s = (Ok tt, log (EvRect x y w h c f) (tick s)).
Proof. intros H. unfold lcd_rect. now rewrite (bind_Ok _ _ _ _ _ (call_ok s H)). Qed.

Lemma setScreenColor_ok (c : Z) (s : State) :
  fault env (clock s) = None ->
  setScreenColor env c s = (Ok tt, put_screen c (tick s)).
Proof.
  intros H. unfold setScreenColor. now rewrite (bind_Ok _ _ _ _ _ (call_ok s H)).
Qed.

Lemma M5TextBox_ok (x y : Z) (txt font : string) (color rotate : Z) (s : State) :
  fault env (clock s) = None ->
  M5TextBox env x y txt font color rotate s =
    (Ok (length (boxes s)),
     put_boxes (boxes s ++ [mkTextBox x y txt font color rotate]) (tick s)).
Proof. intros H. unfold M5TextBox. now rewrite (bind_Ok _ _ _ _ _ (call_ok s H)). Qed.

Lemma setText_ok (h : nat) (txt : string) (s : State) :
  fault env (clock s) = None -> (h < length (boxes s))%nat ->
  setText env h txt s =
    (Ok tt, put_boxes (alter (with_text txt) h (boxes s)) (tick s)).
Proof.
  intros H Hh. unfold setText. rewrite (bind_Ok _ _ _ _ _ (call_ok s H)).
  now apply (update_box_ok h _ (tick s)).
Qed.

Lemma setColor_ok (h : nat) (c : Z) (s : State) :
  fault env (clock s) = None -> (h < length (boxes s))%nat ->
  setColor env h c s =
    (Ok tt, put_boxes (alter (with_color c) h (boxes s)) (tick s)).
Proof.
  intros H Hh. unfold setColor. rewrite (bind_Ok _ _ _ _ _ (call_ok s H)).
  now apply (update_box_ok h _ (tick s)).
Qed.

Lemma getrandbits_ok (n : Z) (s : State) :
  fault env (clock s) = None ->
  getrandbits env n s = (Ok (getrandbits_at env (clock s) n), tick s).
Proof. intros H. unfold getrandbits. now rewrite (bind_Ok _ _ _ _ _ (call_ok s H)). Qed.

Lemma isPressed_ok (b : Button) (s : State) :
  fault env (clock s) = None ->
  isPressed env b s = (Ok (isPressed_at env (clock s) b), tick s).
Proof. intros H. unfold isPressed. now rewrite (bind_Ok _ _ _ _ _ (call_ok s H)). Qed.

Lemma ticks_ms_ok (s : State) :
  fault env (clock s) = None ->
  ticks_ms env s = (Ok (ticks_ms_at env (clock s)), tick s).
Proof. intros H. unfold ticks_ms. now rewrite (bind_Ok _ _ _ _ _ (call_ok s H)). Qed.

Lemma ticks_diff_ok (a b : Z) (s : State) :
  fault env (clock s) = None ->
  ticks_diff env a b s = (Ok (ticks_diff_of env a b), tick s).
Proof. intros H. unfold ticks_diff. now rewrite (bind_Ok _ _ _ _ _ (call_ok s H)). Qed.

Lemma import_math_ok (s : State) :
  fault env (clock s) = None -> import_math env s = (Ok tt, tick s).
Proof. intros H. unfold import_math. now rewrite (bind_Ok _ _ _ _ _ (call_ok s H)). Qed.

End Calls.

Lemma get_count_ok (s : State) : get_count s = (Ok (count s), s).
Proof. reflexivity. Qed.

Lemma set_count_ok (c : Z) (s : State) : set_count c s = (Ok tt, put_count c s).
Proof. reflexivity. Qed.

Lemma ret_ok {A} (a : A) (s : State) : ret a s = (Ok a, s).
Proof. reflexivity. Qed.

(** Symbolic execution of a script along calls that do not raise. *)
Ltac state_simpl :=
  cbn [clock boxes trace screen count tick put_boxes put_screen put_count log
       boot].

Ltac solve_quiet :=
  match goal with
  | Hq : quiet ?env _ _ |- fault ?env _ = None =>
      apply Hq; state_simpl; lia
  end.

Ltac solve_handle :=
  state_simpl; rewrite ?length_alter; first [assumption | lia].

Ltac prim :=
  first
    [ apply get_count_ok
    | apply set_count_ok
    | apply ret_ok
    | apply print_ok; solve_quiet
    | apply sleep_ms_ok; solve_quiet
    | apply lcd_clear_ok; solve_quiet
    | apply lcd_rect_ok; solve_quiet
    | apply setScreenColor_ok; solve_quiet
    | apply M5TextBox_ok; solve_quiet
    | apply setText_ok; [solve_quiet | solve_handle]
    | apply setColor_ok; [solve_quiet | solve_handle]
    | apply getrandbits_ok; solve_quiet
    | apply isPressed_ok; solve_quiet
    | apply ticks_ms_ok; solve_quiet
    | apply ticks_diff_ok; solve_quiet
    | apply import_math_ok; solve_quiet ].

Ltac step :=
  match goal with
  | |- context [bind (bind ?m ?k) ?k' ?s] =>
      rewrite (bind_assoc m k k' s); cbv beta zeta
  | |- context [bind ?m ?k ?s] =>
      erewrite (bind_Ok m k s) by prim; cbv beta zeta
  end.

(** The same to the end of a script, going both ways at each [if]. *)
Ltac run_with tac :=
  repeat first
    [ step
    | progress state_simpl
    | tac
    | match goal with
      | |- context [bind (if ?b then _ else _) _ _] => destruct b
      end ].

Ltac run := run_with fail.

Ltac lookup_simpl :=
  repeat first
    [ rewrite list_lookup_alter_eq
    | rewrite list_lookup_alter_ne by congruence ].

(** ** What a script leaves alone *)

Section Keeps.

Context {X : Type} (f : State -> X).

Lemma keeps_ret {A} (a : A) : keeps f (ret a).
Proof. intros s. reflexivity. Qed.

Lemma keeps_raise {A} (e : exn) : keeps f (@raise A e).
Proof. intros s. reflexivity. Qed.

Lemma keeps_get_count : keeps f get_count.
Proof. intros s. reflexivity. Qed.

Lemma keeps_bind {A B} (m : M A) (k : A -> M B) :
  keeps f m -> (forall a, keeps f (k a)) -> keeps f (bind m k).
Proof.
  intros Hm Hk s. unfold bind. specialize (Hm s).
  destruct (m s) as [[a | e] s1]; simpl in *; [| assumption].
  now rewrite Hk.
Qed.

Lemma keeps_modify (g : State -> State) :
  (forall s, f (g s) = f s) -> keeps f (modify g).
Proof. intros Hg s. apply Hg. Qed.

Hypothesis f_tick : forall s, f (tick s) = f s.

Lemma keeps_call (env : Env) : keeps f (call env).
Proof. intros s. unfold call. destruct (fault env (clock s)); apply f_tick. Qed.

End Keeps.

Lemma keeps_update_box_count (h : nat) (g : TextBox -> TextBox) :
  keeps count (update_box h g).
Proof. intros s. unfold update_box. now destruct (boxes s !! h). Qed.

Lemma keeps_update_box_length (h : nat) (g : TextBox -> TextBox) :
  keeps (fun s => length (boxes s)) (update_box h g).
Proof.
  intros s. unfold update_box. destruct (boxes s !! h); simpl; [| reflexivity].
  apply length_alter.
Qed.

(** Which field a script leaves alone is decided call by call. *)
Ltac keeps_tac :=
  repeat first
    [ apply keeps_ret
    | apply keeps_raise
    | apply keeps_get_count
    | apply keeps_update_box_count
    | apply keeps_update_box_length
    | apply keeps_call; reflexivity
    | apply keeps_modify; reflexivity
    | apply keeps_bind; [| intros ?]
    | match goal with
      | |- keeps _ (if ?b then _ else _) => destruct b
      | |- keeps _ (match ?o with Some _ => _ | None => _ end) => destruct o
      end ].

Section KeepsCalls.

Variable env : Env.

Lemma keeps_count_setText h txt : keeps count (setText env h txt).
Proof. unfold setText. keeps_tac. Qed.

Lemma keeps_count_extended_rest ui start_time bg_color :
  keeps count
    (Extended.update_time env ui start_time ;;
     Extended.update_color_info env ui bg_color ;;
     Extended.draw_progress env ;;
     Extended.blink_status env ui ;;
     Extended.cycle_title env ui ;;
     Extended.check_buttons env ui ;;
     sleep_ms env 500).
Proof.
  unfold Extended.update_time, Extended.update_color_info,
    Extended.draw_progress, Extended.blink_status, Extended.cycle_title,
    Extended.check_buttons, setText, setColor, sleep_ms, lcd_rect,
    import_math, isPressed, ticks_ms, ticks_diff, emit.
  keeps_tac.
Qed.

End KeepsCalls.

Lemma try_except_keeps {X A} (f : State -> X) (m : M A)
    (h : exn -> option (M A)) (s : State) :
  (forall e k, h e = Some k -> keeps f k) ->
  f (snd (try_except m h s)) = f (snd (m s)).
Proof.
  intros Hh. unfold try_except.
  destruct (m s) as [[a | e] s1]; simpl; [reflexivity |].
  destruct (h e) as [k |] eqn:He; [| reflexivity].
  apply (Hh e k He).
Qed.

Lemma bind_ret_keeps {X A B} (f : State -> X) (m : M A) (b : B) (s : State) :
  f (snd ((m ;; ret b) s)) = f (snd (m s)).
Proof. unfold bind. now destruct (m s) as [[a | e] s1]. Qed.

(** ** The counter in a pass *)

Section Counter.

Variable env : Env.

Lemma extended_paint_keeps_count : keeps count (Extended.paint_background env).
Proof.
  unfold Extended.paint_background, Extended.random_color, getrandbits,
    setScreenColor.
  keeps_tac.
Qed.

Lemma extended_update_counter_count ui s :
  count (snd (Extended.update_counter env ui s)) = count s + 1.
Proof.
  unfold Extended.update_counter, bind, get_count, set_count, modify.
  cbn [count put_count].
  apply (keeps_count_setText env _ _ (put_count (count s + 1) s)).
Qed.

Lemma extended_on_error_keeps_count ui msg :
  keeps count (Extended.on_error env ui msg).
Proof.
  unfold Extended.on_error, print, setText, setColor, sleep_ms, emit.
  keeps_tac.
Qed.

Lemma extended_body_count ui start_time s :
  count (snd (Extended.body env ui start_time s)) =
    match fst (Extended.paint_background env s) with
    | Ok _ => count s + 1
    | Raise _ => count s
    end.
Proof.
  unfold Extended.body. unfold bind at 1.
  pose proof (extended_paint_keeps_count s) as Hp.
  destruct (Extended.paint_background env s) as [[bg | e] s1];
    simpl in Hp |- *; [| assumption].
  rewrite <- Hp. unfold bind at 1.
  pose proof (extended_update_counter_count ui s1) as Hc.
  destruct (Extended.update_counter env ui s1) as [[[] | e] s2];
    simpl in Hc |- *; [| assumption].
  rewrite <- Hc. apply keeps_count_extended_rest.
Qed.

Lemma extended_iteration_count ui start_time s :
  count (snd (Extended.iteration env ui start_time s)) =
    match fst (Extended.paint_background env s) with
    | Ok _ => count s + 1
    | Raise _ => count s
    end.
Proof.
  unfold Extended.iteration.
  rewrite try_except_keeps, bind_ret_keeps; [apply extended_body_count |].
  intros [| msg] k [= <-].
  - unfold print, emit. keeps_tac.
  - apply keeps_bind; [apply extended_on_error_keeps_count | intros; apply keeps_ret].
Qed.

Lemma simple_paint_keeps_count : keeps count (Simple.paint_background env).
Proof.
  unfold Simple.paint_background, Simple.random_color, getrandbits,
    setScreenColor.
  keeps_tac.
Qed.

Lemma simple_update_counter_count ui s :
  count (snd (Simple.update_counter env ui s)) = count s + 1.
Proof.
  unfold Simple.update_counter, bind, get_count, set_count, modify.
  cbn [count put_count].
  apply (keeps_count_setText env _ _ (put_count (count s + 1) s)).
Qed.

Lemma simple_body_count ui s :
  count (snd (Simple.body env ui s)) =
    match fst (Simple.paint_background env s) with
    | Ok _ => count s + 1
    | Raise _ => count s
    end.
Proof.
  unfold Simple.body. unfold bind at 1.
  pose proof (simple_paint_keeps_count s) as Hp.
  destruct (Simple.paint_background env s) as [[bg | e] s1];
    simpl in Hp |- *; [| assumption].
  rewrite <- Hp. unfold bind at 1.
  pose proof (simple_update_counter_count ui s1) as Hc.
  destruct (Simple.update_counter env ui s1) as [[[] | e] s2];
    simpl in Hc |- *; [| assumption].
  rewrite <- Hc.
  assert (Hrest : keeps count
            (do c1 <- Simple.random_color env ;;
             setColor env (Simple.title ui) c1 ;;
             do c2 <- Simple.random_color env ;;
             setColor env (Simple.info ui) c2 ;;
             sleep_ms env 1000)).
  { unfold Simple.random_color, getrandbits, setColor, sleep_ms, emit.
    keeps_tac. }
  apply Hrest.
Qed.

Lemma simple_iteration_count ui s :
  count (snd (Simple.iteration env ui s)) =
    match fst (Simple.paint_background env s) with
    | Ok _ => count s + 1
    | Raise _ => count s
    end.
Proof.
  unfold Simple.iteration.
  rewrite try_except_keeps, bind_ret_keeps; [apply simple_body_count |].
  intros [| msg] k [= <-]. apply keeps_ret.
Qed.

(** A loop whose passes add nothing or one to the counter adds between
    nothing and the number of passes. *)
Lemma while_true_count (pass : M Ctl) (fuel : nat) :
  (forall s, count s <= count (snd (pass s)) <= count s + 1) ->
  forall s,
    count s <= count (snd (while_true fuel pass s)) <= count s + Z.of_nat fuel.
Proof.
  intros Hp. induction fuel as [|fuel IH]; intros s.
  - simpl. lia.
  - cbn [while_true]. unfold bind. specialize (Hp s).
    destruct (pass s) as [[[|] | e] s1]; simpl in Hp |- *; [| lia | lia].
    specialize (IH s1). lia.
Qed.

Lemma extended_entry_count (s : State) :
  match Extended.main env 0 s with
  | (Ok _, s') => count s' = 0
  | (Raise _, _) => True
  end.
Proof.
  unfold Extended.main. unfold bind at 1.
  destruct (print env _ s) as [[[] | e] s1]; [| exact I].
  unfold bind at 1.
  destruct (Extended.init_ui env s1) as [[ui | e] s2]; [| exact I].
  unfold bind at 1. cbn [set_count modify]. unfold bind.
  pose proof (keeps_call count (fun _ => eq_refl) env) as Hcall.
  assert (Ht : keeps count (ticks_ms env))
    by (unfold ticks_ms; keeps_tac).
  specialize (Ht (put_count 0 s2)).
  destruct (ticks_ms env (put_count 0 s2)) as [[t | e] s3]; [| exact I].
  exact Ht.
Qed.

Lemma simple_entry_count (s : State) :
  match Simple.main env 0 s with
  | (Ok _, s') => count s' = 0
  | (Raise _, _) => True
  end.
Proof.
  unfold Simple.main. unfold bind at 1.
  destruct (print env _ s) as [[[] | e] s1]; [| exact I].
  unfold bind at 1.
  destruct (Simple.init_ui env s1) as [[ui | e] s2]; [| exact I].
  reflexivity.
Qed.

End Counter.

(** ** A pass of the loop without a fault *)

Lemma ui_ok_inv ui s :
  ui_ok ui s ->
  let t := Extended.title ui in
  let sub := Extended.subtitle ui in
  let st := Extended.status ui in
  let c := Extended.counter ui in
  let td := Extended.time_display ui in
  let ci := Extended.color_info ui in
  (t <> sub /\ t <> st /\ t <> c /\ t <> td /\ t <> ci /\
   sub <> st /\ sub <> c /\ sub <> td /\ sub <> ci /\
   st <> c /\ st <> td /\ st <> ci /\
   c <> td /\ c <> ci /\ td <> ci) /\
  (t < length (boxes s) /\ sub < length (boxes s) /\ st < length (boxes s) /\
   c < length (boxes s) /\ td < length (boxes s) /\ ci < length (boxes s))%nat.
Proof.
  intros [Hnd Hlen]. unfold ui_handles in *. cbv zeta. split.
  - repeat match goal with
           | H : NoDup (_ :: _) |- _ => apply NoDup_cons in H; destruct H
           end.
    repeat match goal with
           | H : _ ∉ _ :: _ |- _ => apply not_elem_of_cons in H; destruct H
           end.
    repeat split; congruence.
  - repeat match goal with
           | H : Forall _ (_ :: _) |- _ => apply Forall_cons in H; destruct H
           end.
    repeat split; assumption.
Qed.

Lemma ui_ok_length ui s s' :
  length (boxes s') = length (boxes s) -> ui_ok ui s -> ui_ok ui s'.
Proof. intros Hlen [Hnd Hb]. split; [assumption |]. now rewrite Hlen. Qed.

Lemma title_colors_getitem (c : Z) :
  exists color,
    palette !! Z.to_nat (c mod 7) = Some color /\
    py_getitem Extended.title_colors
      (c mod Z.of_nat (length Extended.title_colors)) = Some color.
Proof.
  change (Z.of_nat (length Extended.title_colors)) with 7.
  assert (H : 0 <= c mod 7 < 7) by (apply Z.mod_pos_bound; lia).
  assert (Hc : c mod 7 = 0 \/ c mod 7 = 1 \/ c mod 7 = 2 \/ c mod 7 = 3 \/
               c mod 7 = 4 \/ c mod 7 = 5 \/ c mod 7 = 6) by lia.
  destruct Hc as [-> | [-> | [-> | [-> | [-> | [-> | ->]]]]]];
    eexists; split; reflexivity.
Qed.

Section Pass.

Variable env : Env.

(** Everything a pass of the extended script does when none of its calls,
    22 at most, raises. *)
Lemma extended_pass_ok ui start_time s :
  quiet env (clock s) 22 -> ui_ok ui s ->
  let bg := Z.lor (Z.lor (Z.shiftl (getrandbits_at env (clock s) 5) 11)
                         (Z.shiftl (getrandbits_at env (1 + clock s) 6) 5))
                  (getrandbits_at env (2 + clock s) 5) in
  let c := count s + 1 in
  let e := ticks_diff_of env (ticks_ms_at env (5 + clock s)) start_time / 1000 in
  let hit := first_pressed env (15 + clock s) in
  exists s',
    Extended.body env ui start_time s = (Ok tt, s') /\
    count s' = c /\
    screen s' = bg /\
    box_text <$> boxes s' !! Extended.counter ui =
      Some ("Count: " ++ py_str c)%string /\
    box_text <$> boxes s' !! Extended.time_display ui =
      Some (Extended.time_text e) /\
    box_text <$> boxes s' !! Extended.color_info ui =
      Some (Extended.color_text bg) /\
    label s' (Extended.status ui) =
      Some (if c mod 4 <? 2 then status_active else status_ready) /\
    box_color <$> boxes s' !! Extended.title ui =
      palette !! Z.to_nat (c mod 7) /\
    label s' (Extended.subtitle ui) = Some (subtitle_for hit) /\
    trace s' =
      (EvSleep 500 :: debounce hit ++
       EvRect 12 202 (Extended.progress env c) 16 0x00FF88 0x00FF88 ::
       EvRect 10 200 300 20 0x333333 0x333333 :: trace s)%list /\
    length (boxes s') = length (boxes s) /\
    (clock s < clock s' <= clock s + 22)%nat.
Proof.
  intros Hq Hui bg c e hit.
  destruct (ui_ok_inv ui s Hui)
    as ((? & ? & ? & ? & ? & ? & ? & ? & ? & ? & ? & ? & ? & ? & ?) &
        (Ht & Hsub & Hst & Hc & Htd & Hci)).
  destruct (lookup_lt_is_Some_2 _ _ Ht) as [b0 Hb0].
  destruct (lookup_lt_is_Some_2 _ _ Hsub) as [b1 Hb1].
  destruct (lookup_lt_is_Some_2 _ _ Hst) as [b2 Hb2].
  destruct (lookup_lt_is_Some_2 _ _ Hc) as [b3 Hb3].
  destruct (lookup_lt_is_Some_2 _ _ Htd) as [b4 Hb4].
  destruct (lookup_lt_is_Some_2 _ _ Hci) as [b5 Hb5].
  destruct (title_colors_getitem c) as (color & Hpal & Hget).
  subst bg c e hit. unfold first_pressed, label. cbn [Nat.add].
  unfold Extended.body, Extended.paint_background, Extended.random_color,
    Extended.update_counter, Extended.update_time,
    Extended.update_color_info, Extended.draw_progress,
    Extended.blink_status, Extended.cycle_title, Extended.check_buttons.
  run_with ltac:(rewrite Hget);
    (eexists; split; [prim |]); state_simpl; lookup_simpl;
    rewrite ?Hb0, ?Hb1, ?Hb2, ?Hb3, ?Hb4, ?Hb5, ?Hpal, ?length_alter;
    repeat split; lia.
Qed.

Lemma extended_iteration_ok ui start_time s :
  quiet env (clock s) 22 -> ui_ok ui s ->
  exists s',
    Extended.iteration env ui start_time s = (Ok Continue, s') /\
    count s' = count s + 1 /\
    ui_ok ui s' /\
    (clock s < clock s' <= clock s + 22)%nat.
Proof.
  intros Hq Hui.
  destruct (extended_pass_ok ui start_time s Hq Hui)
    as (s' & Hbody & Hcount & _ & _ & _ & _ & _ & _ & _ & _ & Hlen & Hclock).
  exists s'. split; [| split; [assumption | split; [| lia]]].
  - unfold Extended.iteration. apply try_except_Ok.
    now rewrite (bind_Ok _ _ _ _ _ Hbody).
  - now apply (ui_ok_length ui s).
Qed.

(** Without a fault the loop keeps going, one count per pass. *)
Lemma extended_run_ok ui start_time (n : nat) :
  forall s,
    quiet env (clock s) (22 * n) -> ui_ok ui s ->
    exists s',
      while_true n (Extended.iteration env ui start_time) s = (Ok Looping, s') /\
      count s' = count s + Z.of_nat n.
Proof.
  induction n as [|n IH]; intros s Hq Hui.
  - exists s. split; [reflexivity | lia].
  - destruct (extended_iteration_ok ui start_time s) as (s1 & Hit & Hc & Hui1 & Hcl);
      [intros t' Ht'; apply Hq; lia | assumption |].
    destruct (IH s1) as (s' & Hrun & Hc'); [| assumption |].
    { intros t' Ht'. apply Hq. lia. }
    exists s'. split; [| lia].
    cbn [while_true]. now rewrite (bind_Ok _ _ _ _ _ Hit).
Qed.

Lemma extended_init_ui_ok s :
  quiet env (clock s) 7 ->
  exists ui s',
    Extended.init_ui env s = (Ok ui, s') /\
    ui_ok ui s' /\
    clock s' = (clock s + 7)%nat /\
    count s' = count s /\
    label s' (Extended.subtitle ui) = Some (subtitle_for None).
Proof.
  intros Hq. unfold Extended.init_ui. run.
  eexists _, _. split; [prim |]. unfold label, ui_ok, ui_handles.
  state_simpl. cbn [Extended.title Extended.subtitle Extended.status
                      Extended.counter Extended.time_display
                      Extended.color_info].
  rewrite !length_app. cbn [length].
  split; [split | split; [lia | split; [reflexivity |]]].
  - repeat (apply NoDup_cons_2;
            [rewrite ?not_elem_of_cons; repeat split; try lia;
             apply not_elem_of_nil |]).
    apply NoDup_nil_2.
  - repeat (apply Forall_cons_2; [lia |]). apply Forall_nil_2.
  - rewrite <- !(assoc_L (++)). cbn [app].
    rewrite lookup_app_r by lia.
    replace (length (boxes s) + 1 - length (boxes s))%nat with 1%nat by lia.
    reflexivity.
Qed.

Lemma extended_script_ok (n : nat) :
  quiet env 0 (10 + 22 * n) ->
  exists s',
    Extended.script env n boot = (Ok Looping, s') /\
    count s' = Z.of_nat n.
Proof.
  intros Hq. unfold Extended.script, Extended.main. do 2 step. state_simpl.
  destruct (extended_init_ui_ok (log (EvPrint "M5Stack Flash Sample Started!")
                                   (tick (log EvClear (tick boot)))))
    as (ui & s1 & Hinit & Hui & Hcl & Hc & _).
  { intros t' Ht'. apply Hq. cbn in Ht'. lia. }
  cbn in Hcl, Hc.
  rewrite (bind_Ok _ _ _ _ _ Hinit). step.
  erewrite bind_Ok by (apply ticks_ms_ok; apply Hq; state_simpl; lia).
  destruct (extended_run_ok ui (ticks_ms_at env (clock (put_count 0 s1))) n
              (tick (put_count 0 s1))) as (s' & Hrun & Hc').
  - intros t' Ht'. apply Hq. cbn in Ht'. lia.
  - now apply (ui_ok_length ui s1).
  - exists s'. split; [exact Hrun |]. cbn in Hc'. lia.
Qed.

Lemma simple_iteration_ok ui s :
  quiet env (clock s) 8 ->
  (Simple.title ui < length (boxes s))%nat ->
  (Simple.info ui < length (boxes s))%nat ->
  (Simple.counter ui < length (boxes s))%nat ->
  exists s',
    Simple.iteration env ui s = (Ok Continue, s') /\
    count s' = count s + 1 /\
    length (boxes s') = length (boxes s) /\
    (clock s < clock s' <= clock s + 8)%nat.
Proof.
  intros Hq Ht Hi Hc.
  assert (Hbody : exists s',
             (Simple.body env ui ;; ret Continue) s = (Ok Continue, s') /\
             count s' = count s + 1 /\
             length (boxes s') = length (boxes s) /\
             (clock s < clock s' <= clock s + 8)%nat).
  { unfold Simple.body, Simple.paint_background, Simple.update_counter,
      Simple.random_color.
    run. eexists. split; [prim |]. state_simpl. rewrite ?length_alter.
    repeat split; lia. }
  destruct Hbody as (s' & Hbody & Hrest). exists s'. split; [| exact Hrest].
  unfold Simple.iteration. now apply try_except_Ok.
Qed.

Lemma simple_run_ok ui (n : nat) :
  forall s,
    quiet env (clock s) (8 * n) ->
    (Simple.title ui < length (boxes s))%nat ->
    (Simple.info ui < length (boxes s))%nat ->
    (Simple.counter ui < length (boxes s))%nat ->
    exists s',
      while_true n (Simple.iteration env ui) s = (Ok Looping, s') /\
      count s' = count s + Z.of_nat n.
Proof.
  induction n as [|n IH]; intros s Hq Ht Hi Hc.
  - exists s. split; [reflexivity | lia].
  - destruct (simple_iteration_ok ui s) as (s1 & Hit & Hc1 & Hlen & Hcl);
      [intros t' Ht'; apply Hq; lia | assumption | assumption | assumption |].
    destruct (IH s1) as (s' & Hrun & Hc'); [| lia | lia | lia |].
    { intros t' Ht'. apply Hq. lia. }
    exists s'. split; [| lia].
    cbn [while_true]. now rewrite (bind_Ok _ _ _ _ _ Hit).
Qed.

Lemma simple_script_ok (n : nat) :
  quiet env 0 (4 + 8 * n) ->
  exists s',
    Simple.script env n boot = (Ok Looping, s') /\
    count s' = Z.of_nat n.
Proof.
  intros Hq. unfold Simple.script, Simple.main, Simple.init_ui. run.
  match goal with
  | |- context [while_true n ?pass ?s] =>
      destruct (simple_run_ok (Simple.mkUI 0 1 2) n s) as (s' & Hrun & Hc)
  end.
  - intros t' Ht'. apply Hq. cbn in Ht'. lia.
  - cbn. lia.
  - cbn. lia.
  - cbn. lia.
  - exists s'. split; [exact Hrun |]. cbn in Hc. lia.
Qed.

End Pass.

(** ** Faults *)

Section Faults.

Variable env : Env.

Lemma extended_body_keeps_length ui start_time :
  keeps (fun s => length (boxes s)) (Extended.body env ui start_time).
Proof.
  unfold Extended.body, Extended.paint_background, Extended.random_color,
    Extended.update_counter, Extended.update_time,
    Extended.update_color_info, Extended.draw_progress,
    Extended.blink_status, Extended.cycle_title, Extended.check_buttons,
    setText, setColor, setScreenColor, sleep_ms, lcd_rect, import_math,
    isPressed, ticks_ms, ticks_diff, getrandbits, emit, set_count.
  keeps_tac.
Qed.

(** The handler of the extended script, run to its end. *)
Lemma extended_on_error_ok ui msg s :
  quiet env (clock s) 4 ->
  (Extended.status ui < length (boxes s))%nat ->
  exists s',
    Extended.on_error env ui msg s = (Ok tt, s') /\
    trace s' = EvSleep 1000 :: EvPrint ("Error occurred: " ++ msg) :: trace s /\
    label s' (Extended.status ui) = Some status_error /\
    count s' = count s.
Proof.
  intros Hq Hh. unfold Extended.on_error.
  do 3 step. eexists. split; [prim |].
  unfold label. state_simpl. repeat split.
  rewrite !list_lookup_alter_eq.
  destruct (lookup_lt_is_Some_2 _ _ Hh) as [b ->]. reflexivity.
Qed.

End Faults.

(** C1 (as amended).  In the extended script an [Exception] raised inside
    the [try] block is caught at the loop boundary: its message is printed
    behind "Error occurred: ", the status label is set to "Status: ERROR" in
    red, the script sleeps for one second, and the loop goes on with its
    next pass, as long as the four calls of the handler themselves do not
    raise.  The simple script handles the user interrupt only: there an
    [Exception] raised in the [try] block leaves the pass, and the loop, as
    it was raised. *)
Theorem fault_containment :
  (forall env ui start_time s msg s1,
      Extended.body env ui start_time s = (Raise (Exception msg), s1) ->
      quiet env (clock s1) 4 ->
      (Extended.status ui < length (boxes s))%nat ->
      exists s2,
        Extended.iteration env ui start_time s = (Ok Continue, s2) /\
        trace s2 =
          EvSleep 1000 :: EvPrint ("Error occurred: " ++ msg) :: trace s1 /\
        label s2 (Extended.status ui) = Some status_error /\
        count s2 = count s1 /\
        forall fuel,
          while_true (S fuel) (Extended.iteration env ui start_time) s =
          while_true fuel (Extended.iteration env ui start_time) s2) /\
  (forall env ui s msg s1,
      Simple.body env ui s = (Raise (Exception msg), s1) ->
      Simple.iteration env ui s = (Raise (Exception msg), s1) /\
      forall fuel,
        while_true (S fuel) (Simple.iteration env ui) s =
        (Raise (Exception msg), s1)).
Proof.
  split.
  - intros env ui start_time s msg s1 Hbody Hq Hh.
    assert (Hlen : length (boxes s1) = length (boxes s)).
    { pose proof (extended_body_keeps_length env ui start_time s) as Hk.
      now rewrite Hbody in Hk. }
    destruct (extended_on_error_ok env ui msg s1 Hq) as (s2 & Hrun & Htr & Hlab & Hc);
      [lia |].
    assert (Hit : Extended.iteration env ui start_time s = (Ok Continue, s2)).
    { unfold Extended.iteration.
      rewrite (try_except_Raise _ _ s s1 (Exception msg))
        by now rewrite (bind_Raise _ _ _ _ _ Hbody).
      now rewrite (bind_Ok _ _ _ _ _ Hrun). }
    exists s2. repeat split; try assumption.
    intros fuel. cbn [while_true]. now rewrite (bind_Ok _ _ _ _ _ Hit).
  - intros env ui s msg s1 Hbody.
    assert (Hit : Simple.iteration env ui s = (Raise (Exception msg), s1)).
    { unfold Simple.iteration.
      now rewrite (try_except_Raise _ _ s s1 (Exception msg))
        by now rewrite (bind_Raise _ _ _ _ _ Hbody). }
    split; [assumption |].
    intros fuel. cbn [while_true]. now rewrite (bind_Raise _ _ _ _ _ Hit).
Qed.

Lemma fault_containment_witness :
  (exists s2,
      Extended.iteration (env_fault_at 14 (Exception "boom")) ext_ui ext_start
        ext_entry = (Ok Continue, s2) /\
      trace s2 =
        EvSleep 1000 :: EvPrint "Error occurred: boom" ::
        trace (snd (Extended.body (env_fault_at 14 (Exception "boom")) ext_ui
                      ext_start ext_entry)) /\
      label s2 (Extended.status ext_ui) = Some status_error /\
      count s2 = 1 /\
      forall fuel,
        while_true (S fuel)
          (Extended.iteration (env_fault_at 14 (Exception "boom")) ext_ui
             ext_start) ext_entry =
        while_true fuel
          (Extended.iteration (env_fault_at 14 (Exception "boom")) ext_ui
             ext_start) s2) /\
  (Simple.iteration (env_fault_at 6 (Exception "boom")) simple_ui simple_entry =
     (Raise (Exception "boom"),
      snd (Simple.body (env_fault_at 6 (Exception "boom")) simple_ui
             simple_entry)) /\
   forall fuel,
     while_true (S fuel)
       (Simple.iteration (env_fault_at 6 (Exception "boom")) simple_ui)
       simple_entry =
     (Raise (Exception "boom"),
      snd (Simple.body (env_fault_at 6 (Exception "boom")) simple_ui
             simple_entry))).
Proof.
  split.
  - apply (proj1 fault_containment (env_fault_at 14 (Exception "boom")) ext_ui
             ext_start ext_entry "boom").
    + vm_compute. reflexivity.
    + intros t' Ht. vm_compute in Ht. simpl.
      destruct (Nat.eqb_spec t' 14) as [-> | _]; [lia | reflexivity].
    + vm_compute. lia.
  - apply (proj2 fault_containment (env_fault_at 6 (Exception "boom")) simple_ui
             simple_entry "boom").
    vm_compute. reflexivity.
Defined.

(** C1, as it is worded, fails on the simple script: the [Exception] that
    call 5, [setScreenColor] of the first pass, raises is not the user
    interrupt, yet nothing is printed for it and no pass follows; the
    script ends with it however many passes it is given.  It fails on the
    extended script too when the handler itself is hit: with call 14,
    [counter.setText] of the first pass, raising, the handler prints the
    message (call 15), and what its [status.setText] (call 16) raises ends
    the script. *)
Lemma fault_ends_loop :
  (fault (env_fault_at 5 (Exception "boom")) 5 = Some (Exception "boom") /\
   forall fuel,
     Simple.script (env_fault_at 5 (Exception "boom")) (S fuel) boot =
       (Raise (Exception "boom"),
        {| clock := 6; screen := 0;
           boxes := boxes simple_entry;
           trace := [EvPrint "Simple Flash Sample Started!"];
           count := 0 |})) /\
  (forall fuel,
      Extended.script
        (env_two_faults 14 (Exception "boom") 16 (Exception "again"))
        (S fuel) boot =
        (Raise (Exception "again"),
         {| clock := 17; screen := 32717;
            boxes := boxes ext_entry;
            trace := EvPrint "Error occurred: boom" :: trace ext_entry;
            count := 1 |})).
Proof.
  split; [split; [reflexivity |] |]; intros fuel; vm_compute; reflexivity.
Qed.

(** ** The title and the status label *)

(** C2.  The palette of the title is the seven colours 0xFFFFFF, 0xFF0000,
    0x00FF00, 0x0000FF, 0xFFFF00, 0xFF00FF, 0x00FFFF, and a pass of the
    loop that runs without a fault leaves the title in the colour at
    position [count mod 7] of it, [count] being the value the counter has
    in this pass. *)
Theorem title_palette_cycle (env : Env) (ui : Extended.UI) (start_time : Z)
    (s : State) :
  quiet env (clock s) 22 ->
  ui_ok ui s ->
  Extended.title_colors = palette /\
  palette =
    [0xFFFFFF; 0xFF0000; 0x00FF00; 0x0000FF; 0xFFFF00; 0xFF00FF; 0x00FFFF] /\
  exists s' color,
    Extended.body env ui start_time s = (Ok tt, s') /\
    count s' = count s + 1 /\
    palette !! Z.to_nat (count s' mod 7) = Some color /\
    box_color <$> boxes s' !! Extended.title ui = Some color.
Proof.
  intros Hq Hui. do 2 (split; [reflexivity |]).
  destruct (extended_pass_ok env ui start_time s Hq Hui)
    as (s' & Hbody & Hcount & _ & _ & _ & _ & _ & Htitle & _).
  destruct (title_colors_getitem (count s + 1)) as (color & Hpal & _).
  exists s', color. rewrite Hcount, Htitle. auto.
Qed.

Lemma title_palette_cycle_witness :
  Extended.title_colors = palette /\
  palette =
    [0xFFFFFF; 0xFF0000; 0x00FF00; 0x0000FF; 0xFFFF00; 0xFF00FF; 0x00FFFF] /\
  exists s' color,
    Extended.body env_calm ext_ui ext_start (put_count 8 ext_entry) = (Ok tt, s') /\
    count s' = count (put_count 8 ext_entry) + 1 /\
    palette !! Z.to_nat (count s' mod 7) = Some color /\
    box_color <$> boxes s' !! Extended.title ext_ui = Some color.
Proof.
  apply (title_palette_cycle env_calm ext_ui ext_start (put_count 8 ext_entry)).
  - intros t' _. reflexivity.
  - split; apply (bool_decide_unpack _); vm_compute; exact I.
Defined.

(** C3.  A pass of the loop that runs without a fault leaves the status
    label with the text and colour of "ACTIVE" when [count mod 4 < 2], and
    with those of "READY" otherwise, [count] being the value the counter
    has in this pass: two passes of the one, two of the other, and so on. *)
Theorem status_blink (env : Env) (ui : Extended.UI) (start_time : Z)
    (s : State) :
  quiet env (clock s) 22 ->
  ui_ok ui s ->
  exists s',
    Extended.body env ui start_time s = (Ok tt, s') /\
    count s' = count s + 1 /\
    (label s' (Extended.status ui) = Some status_active <-> count s' mod 4 < 2) /\
    (label s' (Extended.status ui) = Some status_ready <-> ~ count s' mod 4 < 2).
Proof.
  intros Hq Hui.
  destruct (extended_pass_ok env ui start_time s Hq Hui)
    as (s' & Hbody & Hcount & _ & _ & _ & _ & Hstatus & _).
  exists s'. rewrite Hcount, Hstatus.
  split; [assumption |]. split; [reflexivity |].
  destruct (Z.ltb_spec ((count s + 1) mod 4) 2) as [Hlt | Hge];
    split; split; intros H; try lia; try reflexivity; discriminate.
Qed.

Lemma status_blink_witness :
  exists s',
    Extended.body env_calm ext_ui ext_start (put_count 5 ext_entry) = (Ok tt, s') /\
    count s' = count (put_count 5 ext_entry) + 1 /\
    (label s' (Extended.status ext_ui) = Some status_active
     <-> count s' mod 4 < 2) /\
    (label s' (Extended.status ext_ui) = Some status_ready
     <-> ~ count s' mod 4 < 2).
Proof.
  apply (status_blink env_calm ext_ui ext_start (put_count 5 ext_entry)).
  - intros t' _. reflexivity.
  - split; apply (bool_decide_unpack _); vm_compute; exact I.
Defined.

(** ** The progress bar *)

Lemma py_int_nonneg (x : R) (z : Z) :
  (IZR z <= x < IZR z + 1)%R -> 0 <= z -> py_int x = z.
Proof.
  intros Hx Hz. unfold py_int.
  assert (0 <= IZR z)%R by now apply IZR_le.
  destruct (Rle_dec 0 x) as [_ | Hneg]; [| lra].
  symmetry. apply Int_part_spec. lra.
Qed.

(** The sine moves no further than its argument. *)
Lemma sin_abs_le (y : R) : (Rabs (sin y) <= Rabs y)%R.
Proof.
  assert (Hpos : forall z, (0 < z)%R -> (- z <= sin z <= z)%R).
  { intros z Hz. split; [| left; now apply sin_lt_x].
    pose proof PI2_1.
    destruct (Rle_dec z PI) as [Hle | Hgt].
    - pose proof (sin_ge_0 z ltac:(lra) Hle). lra.
    - pose proof (SIN_bound z). lra. }
  destruct (Rtotal_order y 0) as [Hneg | [-> | Hy]].
  - destruct (Hpos (- y)%R ltac:(lra)) as [Hlo Hhi].
    rewrite sin_neg in Hlo, Hhi.
    unfold Rabs. destruct (Rcase_abs (sin y)), (Rcase_abs y); lra.
  - rewrite sin_0. lra.
  - destruct (Hpos y Hy) as [Hlo Hhi].
    unfold Rabs. destruct (Rcase_abs (sin y)), (Rcase_abs y); lra.
Qed.

Lemma sin_lipschitz (a b : R) : (Rabs (sin a - sin b) <= Rabs (a - b))%R.
Proof.
  rewrite form4, !Rabs_mult.
  pose proof (sin_abs_le ((a - b) / 2)) as Hs.
  assert (Hc : (Rabs (cos ((a + b) / 2)) <= 1)%R).
  { pose proof (COS_bound ((a + b) / 2)). unfold Rabs.
    destruct (Rcase_abs _); lra. }
  assert (Hh : (Rabs ((a - b) / 2) = Rabs (a - b) / 2)%R).
  { unfold Rabs. destruct (Rcase_abs _), (Rcase_abs _); lra. }
  rewrite Hh in Hs. rewrite (Rabs_pos_eq 2) by lra.
  pose proof (Rabs_pos (cos ((a + b) / 2))).
  pose proof (Rabs_pos (sin ((a - b) / 2))).
  nra.
Qed.

Lemma Rabs_le_iff (x b : R) : (Rabs x <= b)%R <-> (- b <= x <= b)%R.
Proof.
  unfold Rabs. destruct (Rcase_abs x); split; intros; lra.
Qed.

Section Floats.

Variable env : Env.
Variable eps : R.
Hypothesis Hok : float_ok eps env.

Lemma float_eps_bound : (0 <= eps <= 1 / 2 ^ 20)%R.
Proof. apply Hok. Qed.

Lemma float_round_mono (x y : R) :
  (x <= y)%R -> (float_round env x <= float_round env y)%R.
Proof. apply Hok. Qed.

Lemma float_round_int (n : Z) :
  Z.abs n <= 1024 -> float_round env (IZR n) = IZR n.
Proof. apply Hok. Qed.

(** Rounding a number of magnitude [b] at most. *)
Lemma float_round_near (x b : R) :
  (1 <= b <= 2 ^ 64)%R -> (Rabs x <= b)%R ->
  (Rabs (float_round env x - x) <= eps * b)%R.
Proof.
  intros Hb Hx.
  destruct Hok as (He & _ & _ & Hnear & _).
  pose proof (Hnear x ltac:(lra)) as H.
  assert (Rmax 1 (Rabs x) <= b)%R by (apply Rmax_lub; lra).
  nra.
Qed.

Lemma float_round_between (x : R) (lo hi : Z) :
  Z.abs lo <= 1024 -> Z.abs hi <= 1024 ->
  (IZR lo <= x <= IZR hi)%R ->
  (IZR lo <= float_round env x <= IZR hi)%R.
Proof.
  intros Hlo Hhi [H1 H2].
  pose proof (float_round_mono _ _ H1) as H1'.
  pose proof (float_round_mono _ _ H2) as H2'.
  rewrite (float_round_int lo Hlo) in H1'.
  rewrite (float_round_int hi Hhi) in H2'.
  now split.
Qed.

(** The float of line 78 lies between 0 and 300, whatever the count. *)
Lemma progress_float_range (c : Z) :
  (0 <= Extended.progress_float env c <= 300)%R.
Proof.
  unfold Extended.progress_float.
  set (x := float_mul env _ (float_lit env _)).
  unfold float_mul, float_add, float_of_int.
  rewrite (float_round_int 150), (float_round_int 1) by lia.
  destruct Hok as (_ & _ & _ & _ & Hsin & _).
  pose proof (Hsin x) as Hs.
  assert (Ha : (IZR 0 <= math_sin env x + 1 <= IZR 2)%R) by lra.
  pose proof (float_round_between _ 0 2 ltac:(lia) ltac:(lia) Ha) as Hz.
  apply (float_round_between _ 0 300); [lia | lia | lra].
Qed.

Lemma progress_floor (c : Z) :
  let v := Extended.progress_float env c in
  (IZR (Extended.progress env c) <= v < IZR (Extended.progress env c) + 1)%R /\
  0 <= Extended.progress env c <= 300.
Proof.
  intros v. unfold Extended.progress. fold v.
  pose proof (progress_float_range c) as Hv. fold v in Hv.
  unfold py_int. destruct (Rle_dec 0 v) as [_ | Hneg]; [| lra].
  destruct (base_Int_part v) as [Hle Hgt].
  split; [lra |]. split.
  - assert (IZR (-1) < IZR (Int_part v))%R by lra.
    assert (-1 < Int_part v) by now apply lt_IZR. lia.
  - apply le_IZR. lra.
Qed.

(** The float of line 78 against the number it computes: each rounding,
    and the sine of the library, adds its share. *)
Lemma progress_float_near (c : Z) :
  0 <= c <= 2 ^ 60 ->
  (Rabs (Extended.progress_float env c - 150 * (sin (IZR c * (2 / 10)) + 1))
   <= (1050 + 345 * IZR c) * eps)%R.
Proof.
  intros Hc.
  pose proof float_eps_bound as He.
  assert (He' : (eps <= 1 / 1000000)%R) by lra.
  assert (HC0 : (0 <= IZR c)%R) by (apply IZR_le; lia).
  assert (HC1 : (IZR c <= 2 ^ 60)%R).
  { change (2 ^ 60)%Z with 1152921504606846976%Z in Hc.
    destruct Hc as [_ Hc]. apply IZR_le in Hc. lra. }
  unfold Extended.progress_float, float_mul, float_add, float_of_int, float_lit.
  rewrite (float_round_int 150), (float_round_int 1) by lia.
  set (C := IZR c) in *.
  (* the conversion of the count *)
  assert (H1 : (Rabs (float_round env C - C) <= eps * C)%R).
  { destruct (Z.eq_dec c 0) as [Hz | Hnz].
    - unfold C. rewrite Hz, float_round_int by lia.
      rewrite Rminus_diag, Rabs_R0. lra.
    - assert (1 <= C)%R by (apply IZR_le; lia).
      rewrite <- (Rabs_pos_eq C) at 2 by lra.
      apply Rabs_le_iff. apply Rabs_le_iff.
      rewrite (Rabs_pos_eq C) by lra.
      apply float_round_near; [lra |]. rewrite Rabs_pos_eq; lra. }
  (* the literal *)
  assert (H2 : (Rabs (float_round env (2 / 10) - 2 / 10) <= eps * 1)%R).
  { apply float_round_near; [lra |]. rewrite Rabs_pos_eq; lra. }
  set (fc := float_round env C) in *.
  set (t := float_round env (2 / 10)) in *.
  apply Rabs_le_iff in H1, H2.
  (* their product *)
  assert (Hp : (- (13 / 10 * C * eps) <= fc * t - C * (2 / 10)
                <= 13 / 10 * C * eps)%R) by nra.
  assert (Hpb : (Rabs (fc * t) <= 1 + C)%R) by (apply Rabs_le_iff; nra).
  pose proof (float_round_near (fc * t) (1 + C) ltac:(lra) Hpb) as H3.
  set (x := float_round env (fc * t)) in *.
  apply Rabs_le_iff in H3.
  (* the sine *)
  assert (Hxb : (Rabs x <= 2 ^ 64)%R).
  { apply Rabs_le_iff in Hpb. apply Rabs_le_iff. nra. }
  destruct Hok as (_ & _ & _ & _ & Hrange & Hsin).
  pose proof (Hsin x Hxb) as H4. apply Rabs_le_iff in H4.
  pose proof (sin_lipschitz x (C * (2 / 10))) as H5.
  assert (H5' : (Rabs (x - C * (2 / 10)) <= eps * (1 + 23 / 10 * C))%R).
  { apply Rabs_le_iff. nra. }
  apply Rabs_le_iff in H5'.
  assert (H5b : (Rabs (sin x - sin (C * (2 / 10))) <= eps * (1 + 23 / 10 * C))%R).
  { apply Rabs_le_iff in H5'. lra. }
  apply Rabs_le_iff in H5b.
  pose proof (Hrange x) as Hs.
  (* one more, and 150 times *)
  assert (Hab : (Rabs (math_sin env x + 1) <= 2)%R) by (apply Rabs_le_iff; lra).
  pose proof (float_round_near _ 2 ltac:(lra) Hab) as H6.
  assert (Ha : (IZR 0 <= math_sin env x + 1 <= IZR 2)%R) by lra.
  pose proof (float_round_between _ 0 2 ltac:(lia) ltac:(lia) Ha) as Hz.
  set (z := float_round env (math_sin env x + 1)) in *.
  apply Rabs_le_iff in H6.
  assert (Hvb : (Rabs (150 * z) <= 300)%R) by (apply Rabs_le_iff; lra).
  pose proof (float_round_near _ 300 ltac:(lra) Hvb) as H7.
  apply Rabs_le_iff in H7.
  apply Rabs_le_iff. nra.
Qed.

End Floats.

(** The floats of the sample board are exact. *)
Lemma env_calm_float_ok : float_ok 0 env_calm.
Proof.
  unfold float_ok. cbn [float_round math_sin env_calm].
  split; [lra |]. split; [intros x y H; exact H |].
  split; [reflexivity |]. split.
  { intros x _. rewrite Rminus_diag, Rabs_R0. lra. }
  split; [apply SIN_bound |].
  intros x _. rewrite Rminus_diag, Rabs_R0. lra.
Qed.

Lemma sin_one_fifth :
  (198 / 1000 < sin (IZR 1 * (2 / 10)) < 199 / 1000)%R.
Proof.
  replace (IZR 1 * (2 / 10))%R with (1 / 5)%R by lra.
  destruct (pre_sin_bound (1 / 5) 0 ltac:(lra) ltac:(lra)) as [Hlo Hhi].
  unfold sin_approx, sin_term in Hlo, Hhi. simpl in Hlo, Hhi. lra.
Qed.

(** Around 179.8 [int] and [round] part ways. *)
Lemma int_round_near_179_8 (x : R) :
  (179 + 6 / 10 <= x <= 179 + 95 / 100)%R ->
  py_int x = 179 /\ py_round x = 180.
Proof.
  intros Hx.
  assert (Hint : Int_part x = 179) by (symmetry; apply Int_part_spec; lra).
  split.
  - apply py_int_nonneg; [lra | lia].
  - unfold py_round, frac_part. rewrite Hint.
    destruct (Rlt_dec (x - 179) (1 / 2)) as [Hbad | _]; [lra |].
    destruct (Rlt_dec (1 / 2) (x - 179)) as [_ | Hbad]; [reflexivity | lra].
Qed.

(** At [count = 1] the float of line 78 is 179.8 and a bit, on every
    board whose floats are as [float_ok] says. *)
Lemma progress_float_at_1 (env : Env) (eps : R) :
  float_ok eps env ->
  (179 + 6 / 10 <= Extended.progress_float env 1 <= 179 + 95 / 100)%R.
Proof.
  intros Hok.
  pose proof (progress_float_near env eps Hok 1 ltac:(lia)) as Hn.
  pose proof (float_eps_bound env eps Hok) as He.
  pose proof sin_one_fifth as Hs.
  apply Rabs_le_iff in Hn. lra.
Qed.

(** C4 (as amended).  For a count from 0 to [2 ^ 60], on a board whose
    floats are as [float_ok] says, the width of the progress bar is the
    float [150 * (math.sin(count * 0.2) + 1)] cut down to an integer, as
    [int] does, not rounded; it lies between 0 and 300, both included.
    The float is the number 150 * (sin(count / 5) + 1) up to the rounding
    of the conversions, of the literal, of the three operations and of
    [math.sin], [(1050 + 345 * count) * eps] in all: the width is never
    above that number by more than this, nor below it by more than this
    and one. *)
Theorem progress_width (env : Env) (eps : R) (s : State) :
  quiet env (clock s) 3 ->
  float_ok eps env ->
  0 <= count s <= 2 ^ 60 ->
  exists s' w,
    Extended.draw_progress env s = (Ok tt, s') /\
    w = Extended.progress env (count s) /\
    trace s' =
      EvRect 12 202 w 16 0x00FF88 0x00FF88 ::
      EvRect 10 200 300 20 0x333333 0x333333 :: trace s /\
    (IZR w <= Extended.progress_float env (count s) < IZR w + 1)%R /\
    0 <= w <= 300 /\
    (Rabs (Extended.progress_float env (count s) -
           150 * (sin (IZR (count s) * (2 / 10)) + 1))
     <= (1050 + 345 * IZR (count s)) * eps)%R /\
    (150 * (sin (IZR (count s) * (2 / 10)) + 1) -
       (1050 + 345 * IZR (count s)) * eps - 1 < IZR w
     <= 150 * (sin (IZR (count s) * (2 / 10)) + 1) +
        (1050 + 345 * IZR (count s)) * eps)%R.
Proof.
  intros Hq Hok Hc. unfold Extended.draw_progress. do 3 step. state_simpl.
  eexists _, (Extended.progress env (count s)). split; [prim |].
  do 2 (split; [reflexivity |]).
  destruct (progress_floor env eps Hok (count s)) as [Hfloor Hrange].
  pose proof (progress_float_near env eps Hok (count s) Hc) as Hnear.
  split; [exact Hfloor |]. split; [exact Hrange |].
  split; [exact Hnear |].
  cbv zeta in Hfloor. apply Rabs_le_iff in Hnear. lra.
Qed.

Lemma progress_width_witness :
  exists s' w,
    Extended.draw_progress env_calm (put_count 1 ext_entry) = (Ok tt, s') /\
    w = Extended.progress env_calm (count (put_count 1 ext_entry)) /\
    trace s' =
      EvRect 12 202 w 16 0x00FF88 0x00FF88 ::
      EvRect 10 200 300 20 0x333333 0x333333 ::
      trace (put_count 1 ext_entry) /\
    (IZR w <= Extended.progress_float env_calm (count (put_count 1 ext_entry))
     < IZR w + 1)%R /\
    0 <= w <= 300 /\
    (Rabs (Extended.progress_float env_calm (count (put_count 1 ext_entry)) -
           150 * (sin (IZR (count (put_count 1 ext_entry)) * (2 / 10)) + 1))
     <= (1050 + 345 * IZR (count (put_count 1 ext_entry))) * 0)%R /\
    (150 * (sin (IZR (count (put_count 1 ext_entry)) * (2 / 10)) + 1) -
       (1050 + 345 * IZR (count (put_count 1 ext_entry))) * 0 - 1 < IZR w
     <= 150 * (sin (IZR (count (put_count 1 ext_entry)) * (2 / 10)) + 1) +
        (1050 + 345 * IZR (count (put_count 1 ext_entry))) * 0)%R.
Proof.
  apply (progress_width env_calm 0 (put_count 1 ext_entry)).
  - intros t' _. reflexivity.
  - exact env_calm_float_ok.
  - simpl. lia.
Defined.

(** C4, as it is worded, fails at [count = 1]: 150 * (sin 0.2 + 1) is
    179.80..., which [int] cuts down to 179 and rounding takes to 180, in
    exact arithmetic and in the floats of every board that is as
    [float_ok] says. *)
Lemma progress_truncates :
  Extended.progress env_calm 1 = 179 /\
  py_round (150 * (sin (IZR 1 * (2 / 10)) + 1))%R = 180 /\
  (forall env eps,
      float_ok eps env ->
      Extended.progress env 1 = 179 /\
      py_round (Extended.progress_float env 1) = 180 /\
      Extended.progress env 1 <> py_round (Extended.progress_float env 1)).
Proof.
  assert (Hall : forall env eps,
             float_ok eps env ->
             Extended.progress env 1 = 179 /\
             py_round (Extended.progress_float env 1) = 180).
  { intros env eps Hok. apply int_round_near_179_8.
    now apply (progress_float_at_1 env eps). }
  split; [apply (Hall env_calm 0%R env_calm_float_ok) |]. split.
  - apply int_round_near_179_8. pose proof sin_one_fifth. lra.
  - intros env eps Hok. destruct (Hall env eps Hok) as [Hp Hr].
    split; [assumption |]. split; [assumption |]. rewrite Hp, Hr. lia.
Qed.

(** ** The time and colour labels *)

Lemma label_alter_text (bs : list TextBox) (h : nat) (txt : string) :
  (h < length bs)%nat ->
  box_text <$> alter (with_text txt) h bs !! h = Some txt.
Proof.
  intros Hh. rewrite list_lookup_alter_eq.
  destruct (lookup_lt_is_Some_2 _ _ Hh) as [b ->]. reflexivity.
Qed.

Lemma digit_value_nonneg (c : ascii) (d : Z) :
  digit_value c = Some d -> 0 <= d.
Proof.
  unfold digit_value. cbv zeta.
  set (k := Z.of_nat (nat_of_ascii c)).
  destruct (Z.leb_spec 48 k), (Z.leb_spec k 57), (Z.leb_spec 65 k),
    (Z.leb_spec k 70); cbn [andb]; intros Heq; inversion Heq; lia.
Qed.

(** A string of [k] digits reads as a number below [base ^ k]. *)
Lemma parse_digits_bound (base : Z) (s : string) :
  0 < base ->
  forall acc v,
    0 <= acc -> parse_digits base acc s = Some v ->
    v < (acc + 1) * base ^ Z.of_nat (String.length s).
Proof.
  intros Hb. induction s as [|c s IH]; intros acc v Hacc Hp.
  - injection Hp as <-. simpl. lia.
  - cbn [parse_digits] in Hp.
    destruct (digit_value c) as [d|] eqn:Hd; [| discriminate].
    pose proof (digit_value_nonneg c d Hd) as Hd0.
    destruct (Z.ltb_spec d base) as [Hlt | _]; [| discriminate].
    apply IH in Hp; [| nia].
    cbn [String.length]. rewrite Nat2Z.inj_succ, Z.pow_succ_r by lia.
    assert (0 < base ^ Z.of_nat (String.length s)) by (apply Z.pow_pos_nonneg; lia).
    nia.
Qed.

(** A number of at least [10 ^ k] has more than [k] decimal digits. *)
Lemma digits_length_gt (k : nat) (n : Z) :
  10 ^ Z.of_nat k <= n -> (k < String.length (digits 10 n))%nat.
Proof.
  intros Hn.
  assert (0 < 10 ^ Z.of_nat k) by (apply Z.pow_pos_nonneg; lia).
  pose proof (parse_digits_digits 10 ltac:(lia) ltac:(lia) n ltac:(lia)) as Hp.
  apply (parse_digits_bound 10 _ ltac:(lia) 0 n ltac:(lia)) in Hp.
  destruct (Nat.lt_ge_cases k (String.length (digits 10 n))) as [? | Hle];
    [assumption | exfalso].
  assert (10 ^ Z.of_nat (String.length (digits 10 n)) <= 10 ^ Z.of_nat k)
    by (apply Z.pow_le_mono_r; lia).
  lia.
Qed.

(** C5 (as amended).  The time label reads "Time: " and then the elapsed
    seconds [e] as minutes, a colon and seconds, both decimal.  The seconds
    field is always two digits wide, padded with a zero.  The minutes field
    is padded to two digits as well, and is two digits wide below 100
    minutes; from 100 minutes on it is as wide as the number of minutes is
    long, three digits or more.  So 125 seconds show as "02:05", 59 as
    "00:59" and 0 as "00:00". *)
Theorem time_display_mm_ss (env : Env) (ui : Extended.UI) (start_time : Z)
    (s : State) (e : Z) :
  quiet env (clock s) 3 ->
  (Extended.time_display ui < length (boxes s))%nat ->
  e = ticks_diff_of env (ticks_ms_at env (clock s)) start_time / 1000 ->
  0 <= e ->
  (exists s' mm ss,
      Extended.update_time env ui start_time s = (Ok tt, s') /\
      box_text <$> boxes s' !! Extended.time_display ui =
        Some ("Time: " ++ mm ++ ":" ++ ss)%string /\
      parse_digits 10 0 mm = Some (e / 60) /\
      parse_digits 10 0 ss = Some (e mod 60) /\
      String.length ss = 2%nat /\
      (e < 6000 -> String.length mm = 2%nat) /\
      (forall k : nat,
          (2 <= k)%nat ->
          10 ^ Z.of_nat k <= e / 60 < 10 ^ Z.of_nat (S k) ->
          String.length mm = S k)) /\
  Extended.time_text 125 = ("Time: " ++ "02:05")%string /\
  Extended.time_text 59 = ("Time: " ++ "00:59")%string /\
  Extended.time_text 0 = ("Time: " ++ "00:00")%string.
Proof.
  intros Hq Hh He Hpos. split; [| repeat split].
  unfold Extended.update_time. do 2 step. state_simpl. rewrite <- He.
  assert (Hmin : 0 <= e / 60) by (apply Z.div_pos; lia).
  assert (Hsec : 0 <= e mod 60 < 60) by (apply Z.mod_pos_bound; lia).
  eexists _, (format_02d (e / 60)), (format_02d (e mod 60)).
  split; [prim |]. state_simpl.
  split; [now apply label_alter_text |].
  unfold format_02d.
  split; [apply parse_zero_pad; lia |].
  split; [apply parse_zero_pad; lia |].
  rewrite !zero_pad_length by lia.
  pose proof (digits_length_le 10 ltac:(lia) 2 (e mod 60) ltac:(lia) ltac:(lia)).
  split; [lia |]. split.
  - intros Hlt.
    assert (e / 60 < 100) by (apply Z.div_lt_upper_bound; lia).
    pose proof (digits_length_le 10 ltac:(lia) 2 (e / 60) ltac:(lia) ltac:(lia)).
    lia.
  - intros k Hk [Hlo Hhi].
    pose proof (digits_length_gt k (e / 60) Hlo).
    pose proof (digits_length_le 10 ltac:(lia) (S k) (e / 60) ltac:(lia)
                  ltac:(lia)).
    lia.
Qed.

Lemma time_display_mm_ss_witness :
  (exists s' mm ss,
      Extended.update_time env_calm ext_ui ext_start ext_entry = (Ok tt, s') /\
      box_text <$> boxes s' !! Extended.time_display ext_ui =
        Some ("Time: " ++ mm ++ ":" ++ ss)%string /\
      parse_digits 10 0 mm = Some (12 / 60) /\
      parse_digits 10 0 ss = Some (12 mod 60) /\
      String.length ss = 2%nat /\
      (12 < 6000 -> String.length mm = 2%nat) /\
      (forall k : nat,
          (2 <= k)%nat ->
          10 ^ Z.of_nat k <= 12 / 60 < 10 ^ Z.of_nat (S k) ->
          String.length mm = S k)) /\
  Extended.time_text 125 = ("Time: " ++ "02:05")%string /\
  Extended.time_text 59 = ("Time: " ++ "00:59")%string /\
  Extended.time_text 0 = ("Time: " ++ "00:00")%string.
Proof.
  apply (time_display_mm_ss env_calm ext_ui ext_start ext_entry 12).
  - intros t' _. reflexivity.
  - vm_compute. lia.
  - vm_compute. reflexivity.
  - lia.
Defined.

(** C5, as it is worded, fails at [e = 6000]: after 100 minutes the
    minutes field is three digits wide, and the label of a board that has
    run that long reads "Time: 100:00". *)
Lemma time_display_past_99_minutes :
  Extended.time_text 6000 = ("Time: " ++ "100" ++ ":" ++ "00")%string /\
  format_02d (6000 / 60) = "100" /\
  String.length (format_02d (6000 / 60)) <> 2%nat /\
  exists s',
    Extended.update_time env_calm ext_ui (125000 - 6000000) ext_entry =
      (Ok tt, s') /\
    ticks_diff_of env_calm (ticks_ms_at env_calm (clock ext_entry))
      (125000 - 6000000) / 1000 = 6000 /\
    box_text <$> boxes s' !! Extended.time_display ext_ui =
      Some "Time: 100:00".
Proof.
  split; [vm_compute; reflexivity |]. split; [vm_compute; reflexivity |].
  split; [vm_compute; discriminate |].
  eexists. split; [vm_compute; reflexivity |].
  split; vm_compute; reflexivity.
Qed.

(** C6.  The colour label reads "RGB: 0x" and then the background colour
    in six hexadecimal digits, upper case, padded with zeros (for a colour
    of at most 24 bits); 0x00FF88 shows as "RGB: 0x00FF88". *)
Theorem color_info_hex (env : Env) (ui : Extended.UI) (s : State) (bg_color : Z) :
  quiet env (clock s) 1 ->
  (Extended.color_info ui < length (boxes s))%nat ->
  0 <= bg_color < 2 ^ 24 ->
  (exists s' hex,
      Extended.update_color_info env ui bg_color s = (Ok tt, s') /\
      box_text <$> boxes s' !! Extended.color_info ui =
        Some ("RGB: 0x" ++ hex)%string /\
      String.length hex = 6%nat /\
      parse_digits 16 0 hex = Some bg_color) /\
  Extended.color_text 0x00FF88 = "RGB: 0x00FF88".
Proof.
  intros Hq Hh Hc. split; [| reflexivity].
  unfold Extended.update_color_info.
  eexists _, (format_06X bg_color). split; [prim |]. state_simpl.
  split; [now apply label_alter_text |].
  unfold format_06X. rewrite zero_pad_length by lia.
  pose proof (digits_length_le 16 ltac:(lia) 6 bg_color ltac:(lia) ltac:(lia)).
  split; [lia |]. apply parse_zero_pad; lia.
Qed.

Lemma color_info_hex_witness :
  (exists s' hex,
      Extended.update_color_info env_calm ext_ui 0x00FF88 ext_entry = (Ok tt, s') /\
      box_text <$> boxes s' !! Extended.color_info ext_ui =
        Some ("RGB: 0x" ++ hex)%string /\
      String.length hex = 6%nat /\
      parse_digits 16 0 hex = Some 0x00FF88) /\
  Extended.color_text 0x00FF88 = "RGB: 0x00FF88".
Proof.
  apply (color_info_hex env_calm ext_ui ext_entry 0x00FF88).
  - intros t' _. reflexivity.
  - vm_compute. lia.
  - lia.
Defined.

(** ** Colours *)

(** A field shifted above the bits of another one shares no bit with it,
    so that or-ing them adds them. *)
Lemma lor_shiftl_disjoint (hi lo k : Z) :
  0 <= k -> 0 <= lo < 2 ^ k ->
  Z.land (Z.shiftl hi k) lo = 0 /\
  Z.lor (Z.shiftl hi k) lo = hi * 2 ^ k + lo.
Proof.
  intros Hk Hlo.
  assert (Hland : Z.land (Z.shiftl hi k) lo = 0).
  { apply Z.bits_inj'. intros n Hn.
    rewrite Z.land_spec, Z.bits_0.
    destruct (Z.lt_ge_cases n k) as [Hlt | Hge].
    - now rewrite Z.shiftl_spec_low.
    - rewrite andb_false_iff. right.
      destruct (Z.eq_dec lo 0) as [-> | Hnz]; [apply Z.bits_0 |].
      apply Z.bits_above_log2; [lia |].
      apply Z.lt_le_trans with k; [| assumption].
      apply Z.log2_lt_pow2; lia. }
  split; [assumption |].
  rewrite <- Z.lxor_lor, <- Z.add_nocarry_lxor by assumption.
  now rewrite Z.shiftl_mul_pow2.
Qed.

(** The three fields of RGB565, packed as [random_color] packs them. *)
Lemma rgb565_fields (r g b : Z) :
  0 <= r <= 31 -> 0 <= g <= 63 -> 0 <= b <= 31 ->
  let R := Z.shiftl r 11 in
  let G := Z.shiftl g 5 in
  Z.lor (Z.lor R G) b = r * 2048 + g * 32 + b /\
  Z.lor (Z.lor R G) b = R + G + b /\
  Z.land R G = 0 /\ Z.land R b = 0 /\ Z.land G b = 0.
Proof.
  intros Hr Hg Hb R G. subst R G.
  assert (HG : Z.shiftl g 5 = g * 32) by (now rewrite Z.shiftl_mul_pow2).
  assert (HR : Z.shiftl r 11 = r * 2048) by (now rewrite Z.shiftl_mul_pow2).
  destruct (lor_shiftl_disjoint r (Z.shiftl g 5) 11) as [Hrg Hlor1];
    [lia | rewrite HG; change (2 ^ 11) with 2048; lia |].
  destruct (lor_shiftl_disjoint r b 11) as [Hrb _];
    [lia | change (2 ^ 11) with 2048; lia |].
  destruct (lor_shiftl_disjoint g b 5) as [Hgb _];
    [lia | change (2 ^ 5) with 32; lia |].
  destruct (lor_shiftl_disjoint (r * 64 + g) b 5) as [_ Hlor2];
    [lia | change (2 ^ 5) with 32; lia |].
  assert (Hpack : Z.lor (Z.lor (Z.shiftl r 11) (Z.shiftl g 5)) b
                  = r * 2048 + g * 32 + b).
  { assert (Hsh : r * 2 ^ 11 + g * 32 = Z.shiftl (r * 64 + g) 5)
      by (rewrite Z.shiftl_mul_pow2 by lia; lia).
    rewrite Hlor1, HG, Hsh, Hlor2. lia. }
  repeat split; try assumption.
  rewrite Hpack, HR, HG. reflexivity.
Qed.

Lemma rgb565_unpack (r g b : Z) :
  0 <= r <= 31 -> 0 <= g <= 63 -> 0 <= b <= 31 ->
  let c := r * 2048 + g * 32 + b in
  red_of c = r /\ green_of c = g /\ blue_of c = b.
Proof.
  intros Hr Hg Hb c. subst c. unfold red_of, green_of, blue_of.
  change 0x1F with (Z.ones 5). change 0x3F with (Z.ones 6).
  rewrite !Z.land_ones, !Z.shiftr_div_pow2 by lia.
  change (2 ^ 11) with 2048. change (2 ^ 5) with 32. change (2 ^ 6) with 64.
  repeat split; Z.to_euclidean_division_equations; lia.
Qed.

(** C7.  When the random source hands out [r] of 5 bits, [g] of 6 bits and
    [b] of 5 bits, [random_color] of the extended script returns
    [(r << 11) | (g << 5) | b], from which shifting and masking recover
    [r], [g] and [b]. *)
Theorem rgb565_pack_roundtrip (env : Env) (s : State) (r g b : Z) :
  quiet env (clock s) 3 ->
  r = getrandbits_at env (clock s) 5 ->
  g = getrandbits_at env (S (clock s)) 6 ->
  b = getrandbits_at env (S (S (clock s))) 5 ->
  0 <= r <= 31 -> 0 <= g <= 63 -> 0 <= b <= 31 ->
  let packed := Z.lor (Z.lor (Z.shiftl r 11) (Z.shiftl g 5)) b in
  (exists s', Extended.random_color env s = (Ok packed, s')) /\
  red_of packed = r /\ green_of packed = g /\ blue_of packed = b.
Proof.
  intros Hq -> -> -> Hr Hg Hb packed. subst packed. split.
  - unfold Extended.random_color. do 2 step. state_simpl.
    eexists. step. state_simpl. reflexivity.
  - destruct (rgb565_fields _ _ _ Hr Hg Hb) as (-> & _).
    now apply rgb565_unpack.
Qed.

Lemma rgb565_pack_roundtrip_witness :
  (exists s',
      Extended.random_color env_calm ext_entry = (Ok 0x7FCD, s')) /\
  red_of 0x7FCD = 15 /\ green_of 0x7FCD = 62 /\ blue_of 0x7FCD = 13.
Proof.
  apply (rgb565_pack_roundtrip env_calm ext_entry 15 62 13).
  - intros t' _. reflexivity.
  - reflexivity.
  - reflexivity.
  - reflexivity.
  - lia.
  - lia.
  - lia.
Defined.

Lemma format_06X_16_bits (c : Z) :
  0 <= c <= 65535 ->
  exists rest,
    format_06X c = ("00" ++ rest)%string /\ String.length rest = 4%nat.
Proof.
  intros Hc. unfold format_06X. rewrite zero_pad_nonneg by lia.
  pose proof (digits_length_le 16 ltac:(lia) 4 c ltac:(lia) ltac:(lia)) as Hlen.
  exists (zeros (4 - String.length (digits 16 c)) ++ digits 16 c)%string.
  split.
  - replace (6 - String.length (digits 16 c))%nat
      with (S (S (4 - String.length (digits 16 c)))) by lia.
    reflexivity.
  - rewrite string_length_app, zeros_length. lia.
Qed.

Section RandomColor.

Variable env : Env.

Lemma simple_random_color_inv s c s' :
  Simple.random_color env s = (Ok c, s') ->
  c = getrandbits_at env (clock s) 16.
Proof.
  unfold Simple.random_color, getrandbits, bind, call, ret.
  destruct (fault env (clock s)); intros [= <- _]. reflexivity.
Qed.

Lemma extended_random_color_inv s c s' :
  Extended.random_color env s = (Ok c, s') ->
  c = Z.lor (Z.lor (Z.shiftl (getrandbits_at env (clock s) 5) 11)
                   (Z.shiftl (getrandbits_at env (S (clock s)) 6) 5))
            (getrandbits_at env (S (S (clock s))) 5).
Proof.
  unfold Extended.random_color, getrandbits, bind, call, ret.
  destruct (fault env (clock s)); [intros [=] |]. state_simpl.
  destruct (fault env (S (clock s))); [intros [=] |]. state_simpl.
  destruct (fault env (S (S (clock s)))); intros [= <- _]. reflexivity.
Qed.

End RandomColor.

(** C10.  With a random source that keeps to the number of bits asked
    for, [random_color] returns a number from 0 to 65535 in both scripts
    (and it does return unless a call to the source raises).  In the
    extended script the red, green and blue fields share no bit, their
    bitwise or is their sum, and the colour label, six hexadecimal digits
    wide, starts with "RGB: 0x00". *)
Theorem random_color_16_bits (env : Env) :
  rng_ok env ->
  (forall s c s', Simple.random_color env s = (Ok c, s') -> 0 <= c <= 65535) /\
  (forall s, quiet env (clock s) 1 ->
             exists c s', Simple.random_color env s = (Ok c, s')) /\
  (forall s c s',
      Extended.random_color env s = (Ok c, s') ->
      let r := Z.shiftl (getrandbits_at env (clock s) 5) 11 in
      let g := Z.shiftl (getrandbits_at env (S (clock s)) 6) 5 in
      let b := getrandbits_at env (S (S (clock s))) 5 in
      c = Z.lor (Z.lor r g) b /\
      Z.land r g = 0 /\ Z.land r b = 0 /\ Z.land g b = 0 /\
      c = r + g + b /\
      0 <= c <= 65535 /\
      exists rest,
        Extended.color_text c = ("RGB: 0x00" ++ rest)%string /\
        String.length rest = 4%nat) /\
  (forall s, quiet env (clock s) 3 ->
             exists c s', Extended.random_color env s = (Ok c, s')).
Proof.
  intros Hrng. repeat apply conj.
  - intros s c s' H. apply simple_random_color_inv in H. subst c.
    pose proof (Hrng (clock s) 16 ltac:(lia)) as Hb.
    change (2 ^ 16) with 65536 in Hb. lia.
  - intros s Hq. unfold Simple.random_color. eexists _, _. prim.
  - intros s c s' H r g b. subst r g b.
    apply extended_random_color_inv in H.
    pose proof (Hrng (clock s) 5 ltac:(lia)) as Hr.
    pose proof (Hrng (S (clock s)) 6 ltac:(lia)) as Hg.
    pose proof (Hrng (S (S (clock s))) 5 ltac:(lia)) as Hb.
    change (2 ^ 5) with 32 in Hr, Hb. change (2 ^ 6) with 64 in Hg.
    destruct (rgb565_fields (getrandbits_at env (clock s) 5)
                (getrandbits_at env (S (clock s)) 6)
                (getrandbits_at env (S (S (clock s))) 5))
      as (Hval & Hsum & Hrg & Hrb & Hgb); [lia | lia | lia |].
    cbv zeta in Hval, Hsum, Hrg, Hrb, Hgb.
    assert (Hc : 0 <= c <= 65535) by (rewrite H, Hval; lia).
    repeat apply conj; try assumption; try lia.
    destruct (format_06X_16_bits c Hc) as (rest & Hfmt & Hlen).
    exists rest. split; [| assumption].
    unfold Extended.color_text. now rewrite Hfmt.
  - intros s Hq. unfold Extended.random_color. do 2 step. state_simpl.
    eexists _, _. step. reflexivity.
Qed.

Lemma random_color_16_bits_witness :
  (forall s c s', Simple.random_color env_calm s = (Ok c, s') -> 0 <= c <= 65535) /\
  (forall s, quiet env_calm (clock s) 1 ->
             exists c s', Simple.random_color env_calm s = (Ok c, s')) /\
  (forall s c s',
      Extended.random_color env_calm s = (Ok c, s') ->
      let r := Z.shiftl (getrandbits_at env_calm (clock s) 5) 11 in
      let g := Z.shiftl (getrandbits_at env_calm (S (clock s)) 6) 5 in
      let b := getrandbits_at env_calm (S (S (clock s))) 5 in
      c = Z.lor (Z.lor r g) b /\
      Z.land r g = 0 /\ Z.land r b = 0 /\ Z.land g b = 0 /\
      c = r + g + b /\
      0 <= c <= 65535 /\
      exists rest,
        Extended.color_text c = ("RGB: 0x00" ++ rest)%string /\
        String.length rest = 4%nat) /\
  (forall s, quiet env_calm (clock s) 3 ->
             exists c s', Extended.random_color env_calm s = (Ok c, s')).
Proof.
  apply (random_color_16_bits env_calm).
  intros t n Hn. apply Z.mod_pos_bound. apply Z.pow_pos_nonneg; lia.
Defined.

(** ** The buttons *)



(** ** The counter over a run *)

(** C9.  In both scripts the counter starts at 0 when the loop is entered;
    a pass of the loop adds exactly one to it when the pass gets as far as
    the increment, that is when drawing and painting the background colour
    did not raise (also when the pass raises later on and the exception is
    handled), and leaves it as it is otherwise; so it never decreases, and
    after any number of passes it has grown by that number at most, and by
    exactly that number when no call raised: after [n] such passes it is
    [n]. *)
Theorem counter_monotone (env : Env) :
  (forall s, match Extended.main env 0 s with
             | (Ok _, s') => count s' = 0
             | (Raise _, _) => True
             end) /\
  (forall ui start_time s,
      count (snd (Extended.iteration env ui start_time s)) =
        match fst (Extended.paint_background env s) with
        | Ok _ => count s + 1
        | Raise _ => count s
        end) /\
  (forall ui start_time fuel s,
      count s
      <= count (snd (while_true fuel (Extended.iteration env ui start_time) s))
      <= count s + Z.of_nat fuel) /\
  (forall s, match Simple.main env 0 s with
             | (Ok _, s') => count s' = 0
             | (Raise _, _) => True
             end) /\
  (forall ui s,
      count (snd (Simple.iteration env ui s)) =
        match fst (Simple.paint_background env s) with
        | Ok _ => count s + 1
        | Raise _ => count s
        end) /\
  (forall ui fuel s,
      count s
      <= count (snd (while_true fuel (Simple.iteration env ui) s))
      <= count s + Z.of_nat fuel) /\
  (forall n, quiet env 0 (10 + 22 * n) ->
             exists s', Extended.script env n boot = (Ok Looping, s') /\
                        count s' = Z.of_nat n) /\
  (forall n, quiet env 0 (4 + 8 * n) ->
             exists s', Simple.script env n boot = (Ok Looping, s') /\
                        count s' = Z.of_nat n).
Proof.
  repeat apply conj.
  - apply extended_entry_count.
  - apply extended_iteration_count.
  - intros ui start_time fuel s. apply while_true_count.
    intros s0. rewrite extended_iteration_count. destruct (fst _); lia.
  - apply simple_entry_count.
  - apply simple_iteration_count.
  - intros ui fuel s. apply while_true_count.
    intros s0. rewrite simple_iteration_count. destruct (fst _); lia.
  - apply extended_script_ok.
  - apply simple_script_ok.
Qed.

Lemma counter_monotone_witness :
  (exists s', Extended.script env_calm 3 boot = (Ok Looping, s') /\
              count s' = Z.of_nat 3) /\
  (exists s', Simple.script env_calm 3 boot = (Ok Looping, s') /\
              count s' = Z.of_nat 3).
Proof.
  destruct (counter_monotone env_calm) as (_ & _ & _ & _ & _ & _ & Hext & Hsim).
  split.
  - apply Hext. intros t' _. reflexivity.
  - apply Hsim. intros t' _. reflexivity.
Defined.

(** * Further properties *)

(** ** Start-up *)

Lemma call_raise (env : Env) (s : State) (e : exn) :
  fault env (clock s) = Some e -> call env s = (Raise e, tick s).
Proof. intros H. unfold call. now rewrite H. Qed.

(** X1.  Without a fault [init_ui] puts its six labels, with the texts,
    fonts and colours of lines 25-40, behind the text boxes there are,
    which it leaves alone; it returns their six handles, all different and
    all valid, and draws the background of the progress bar. *)
Theorem init_ui_labels (env : Env) (s : State) :
  quiet env (clock s) 7 ->
  exists ui s',
    Extended.init_ui env s = (Ok ui, s') /\
    ui_handles ui = seq (length (boxes s)) 6 /\
    boxes s' = (boxes s ++ initial_labels)%list /\
    ui_ok ui s' /\
    trace s' = EvRect 10 200 300 20 0x333333 0x333333 :: trace s /\
    clock s' = (clock s + 7)%nat /\
    screen s' = screen s /\
    count s' = count s.
Proof.
  intros Hq. unfold Extended.init_ui. run.
  eexists _, _. split; [prim |].
  unfold ui_ok, ui_handles. state_simpl.
  cbn [Extended.title Extended.subtitle Extended.status Extended.counter
         Extended.time_display Extended.color_info].
  rewrite !length_app. cbn [length seq].
  rewrite <- !(assoc_L (++)). cbn [app].
  replace (length (boxes s) + 1)%nat with (S (length (boxes s))) by lia.
  replace (S (length (boxes s)) + 1)%nat with (S (S (length (boxes s)))) by lia.
  replace (S (S (length (boxes s))) + 1)%nat
    with (S (S (S (length (boxes s))))) by lia.
  replace (S (S (S (length (boxes s)))) + 1)%nat
    with (S (S (S (S (length (boxes s)))))) by lia.
  replace (S (S (S (S (length (boxes s))))) + 1)%nat
    with (S (S (S (S (S (length (boxes s))))))) by lia.
  split; [reflexivity |]. split; [reflexivity |].
  split; [| repeat split; lia].
  split.
  - apply (NoDup_seq (length (boxes s)) 6).
  - repeat (apply Forall_cons_2; [lia |]). apply Forall_nil_2.
Qed.

Lemma init_ui_labels_witness :
  exists ui s',
    Extended.init_ui env_calm simple_entry = (Ok ui, s') /\
    ui_handles ui = seq (length (boxes simple_entry)) 6 /\
    boxes s' = (boxes simple_entry ++ initial_labels)%list /\
    ui_ok ui s' /\
    trace s' = EvRect 10 200 300 20 0x333333 0x333333 :: trace simple_entry /\
    clock s' = (clock simple_entry + 7)%nat /\
    screen s' = screen simple_entry /\
    count s' = count simple_entry.
Proof.
  apply (init_ui_labels env_calm simple_entry).
  intros t' _. reflexivity.
Defined.

(** The call that raises: every firmware call starts with [call]. *)
Ltac fault_here Hf :=
  unfold print, sleep_ms, lcd_clear, lcd_rect, setScreenColor, M5TextBox,
    setText, setColor, getrandbits, isPressed, ticks_ms, ticks_diff,
    import_math;
  repeat rewrite bind_assoc;
  erewrite bind_Raise by (apply call_raise; state_simpl; exact Hf).

(** X2.  Whatever one of the calls made before the loop raises, the user
    interrupt included, leaves the script: ten calls in the extended script
    ([lcd.clear], the first [print], [init_ui], [time.ticks_ms]), four in
    the simple one.  The [try] block is not reached, so nothing is printed
    for it, and the counter is still 0. *)
Theorem startup_fault_escapes (env : Env) (t : nat) (e : exn) (fuel : nat) :
  quiet env 0 t ->
  fault env t = Some e ->
  ((t < 10)%nat ->
   exists s',
     Extended.script env fuel boot = (Raise e, s') /\
     clock s' = S t /\ count s' = 0 /\
     forall line, EvPrint line ∈ trace s' ->
                  line = "M5Stack Flash Sample Started!") /\
  ((t < 4)%nat ->
   exists s',
     Simple.script env fuel boot = (Raise e, s') /\
     clock s' = S t /\ count s' = 0).
Proof.
  intros Hq Hf. split; intros Ht.
  - unfold Extended.script, Extended.main, Extended.init_ui.
    do 10 (destruct t as [|t];
           [run; fault_here Hf; eexists;
            (split; [reflexivity |]); (split; [reflexivity |]);
            (split; [reflexivity |]); state_simpl; intros line Hin;
            repeat (apply elem_of_cons in Hin as [Hin | Hin];
                    [try discriminate Hin; now inversion Hin |]);
            now apply elem_of_nil in Hin |]).
    lia.
  - unfold Simple.script, Simple.main, Simple.init_ui.
    do 4 (destruct t as [|t];
          [run; fault_here Hf; eexists; repeat split |]).
    lia.
Qed.

Lemma startup_fault_escapes_witness :
  (exists s',
      Extended.script (env_fault_at 3 KeyboardInterrupt) 5 boot =
        (Raise KeyboardInterrupt, s') /\
      clock s' = 4%nat /\ count s' = 0 /\
      forall line, EvPrint line ∈ trace s' ->
                   line = "M5Stack Flash Sample Started!") /\
  (exists s',
      Simple.script (env_fault_at 3 KeyboardInterrupt) 5 boot =
        (Raise KeyboardInterrupt, s') /\
      clock s' = 4%nat /\ count s' = 0).
Proof.
  destruct (startup_fault_escapes (env_fault_at 3 KeyboardInterrupt) 3
              KeyboardInterrupt 5) as [Hext Hsim].
  - intros t' Ht. simpl. destruct (Nat.eqb_spec t' 3); [lia | reflexivity].
  - reflexivity.
  - split; [apply Hext | apply Hsim]; lia.
Defined.

(** ** The user interrupt *)

(** X3.  When the [try] block raises the user interrupt, the extended
    script prints "Program interrupted by user" and [main] returns; the
    screen, the labels and the counter stay as the interrupted pass left
    them (no error is shown).  Should that [print] raise, its exception
    leaves the script.  The simple script returns without a word. *)
Theorem interrupt_leaves_loop :
  (forall env ui start_time s s1,
      Extended.body env ui start_time s = (Raise KeyboardInterrupt, s1) ->
      (fault env (clock s1) = None ->
       forall fuel,
         while_true (S fuel) (Extended.iteration env ui start_time) s =
           (Ok Interrupted,
            log (EvPrint "Program interrupted by user") (tick s1))) /\
      (forall e,
          fault env (clock s1) = Some e ->
          forall fuel,
            while_true (S fuel) (Extended.iteration env ui start_time) s =
              (Raise e, tick s1))) /\
  (forall env ui s s1,
      Simple.body env ui s = (Raise KeyboardInterrupt, s1) ->
      forall fuel,
        while_true (S fuel) (Simple.iteration env ui) s = (Ok Interrupted, s1)).
Proof.
  split.
  - intros env ui start_time s s1 Hbody.
    assert (Hit : Extended.iteration env ui start_time s =
                  (print env "Program interrupted by user" ;; ret Break) s1).
    { unfold Extended.iteration.
      now rewrite (try_except_Raise _ _ s s1 KeyboardInterrupt)
        by now rewrite (bind_Raise _ _ _ _ _ Hbody). }
    split.
    + intros Hf fuel. cbn [while_true].
      assert (Hbrk : Extended.iteration env ui start_time s =
                     (Ok Break,
                      log (EvPrint "Program interrupted by user") (tick s1))).
      { rewrite Hit. erewrite bind_Ok by (now apply print_ok). reflexivity. }
      now rewrite (bind_Ok _ _ _ _ _ Hbrk).
    + intros e Hf fuel. cbn [while_true].
      apply bind_Raise. rewrite Hit. apply bind_Raise.
      unfold print. apply bind_Raise. now apply call_raise.
  - intros env ui s s1 Hbody fuel. cbn [while_true].
    assert (Hbrk : Simple.iteration env ui s = (Ok Break, s1)).
    { unfold Simple.iteration.
      now rewrite (try_except_Raise _ _ s s1 KeyboardInterrupt)
        by now rewrite (bind_Raise _ _ _ _ _ Hbody). }
    now rewrite (bind_Ok _ _ _ _ _ Hbrk).
Qed.

Lemma interrupt_leaves_loop_witness :
  (forall fuel,
      while_true (S fuel)
        (Extended.iteration (env_fault_at 14 KeyboardInterrupt) ext_ui ext_start)
        ext_entry =
        (Ok Interrupted,
         log (EvPrint "Program interrupted by user")
           (tick (snd (Extended.body (env_fault_at 14 KeyboardInterrupt) ext_ui
                         ext_start ext_entry))))) /\
  (forall fuel,
      while_true (S fuel)
        (Simple.iteration (env_fault_at 6 KeyboardInterrupt) simple_ui)
        simple_entry =
        (Ok Interrupted,
         snd (Simple.body (env_fault_at 6 KeyboardInterrupt) simple_ui
                simple_entry))).
Proof.
  split.
  - apply (proj1 interrupt_leaves_loop (env_fault_at 14 KeyboardInterrupt)
             ext_ui ext_start ext_entry).
    + vm_compute. reflexivity.
    + vm_compute. reflexivity.
  - apply (proj2 interrupt_leaves_loop (env_fault_at 6 KeyboardInterrupt)
             simple_ui simple_entry).
    vm_compute. reflexivity.
Defined.

(** ** Leaving the loop *)

Section Signalled.

Variable env : Env.

Lemma signalled_ret {A} (a : A) : signalled env no_stop (ret a).
Proof. intros s. simpl. split; [lia | discriminate]. Qed.

Lemma signalled_raise {A} (stop : A -> bool) (msg : string) :
  signalled env stop (raise (Exception msg)).
Proof. intros s. simpl. split; [lia | contradiction]. Qed.

Lemma signalled_get_count : signalled env no_stop get_count.
Proof. intros s. simpl. split; [lia | discriminate]. Qed.

Lemma signalled_modify (g : State -> State) :
  (forall s, clock (g s) = clock s) -> signalled env no_stop (modify g).
Proof. intros Hg s. simpl. rewrite Hg. split; [lia | discriminate]. Qed.

Lemma signalled_update_box (h : nat) (g : TextBox -> TextBox) :
  signalled env no_stop (update_box h g).
Proof.
  intros s. unfold update_box.
  destruct (boxes s !! h); simpl; (split; [lia | easy]).
Qed.

Lemma signalled_call : signalled env no_stop (call env).
Proof.
  intros s. unfold call.
  destruct (fault env (clock s)) as [[| msg] |] eqn:Hf; simpl;
    (split; [lia |]); try easy.
  intros _. exists (clock s). split; [lia | assumption].
Qed.

Lemma signalled_bind {A B} (stop : B -> bool) (m : M A) (k : A -> M B) :
  signalled env no_stop m -> (forall a, signalled env stop (k a)) ->
  signalled env stop (bind m k).
Proof.
  intros Hm Hk s. unfold bind. destruct (Hm s) as [Hclock Hint].
  destruct (m s) as [[a | e] s1]; simpl in *.
  - destruct (Hk a s1) as [Hclock' Hint']. split; [lia |].
    intros Hr. destruct (Hint' Hr) as (t & Ht & Hf). exists t. split; [lia | assumption].
  - split; [assumption |]. destruct e; [| contradiction].
    intros _. now apply Hint.
Qed.

Lemma signalled_new_box (b : TextBox) :
  signalled env no_stop
    (fun s => (Ok (length (boxes s)), put_boxes (boxes s ++ [b]) s)).
Proof. intros s. simpl. split; [lia | discriminate]. Qed.

End Signalled.

Ltac signalled_tac :=
  repeat first
    [ apply signalled_ret
    | apply signalled_raise
    | apply signalled_get_count
    | apply signalled_update_box
    | apply signalled_call
    | apply signalled_new_box
    | apply signalled_modify; reflexivity
    | apply signalled_bind; [| intros ?]
    | match goal with
      | |- signalled _ _ (if ?b then _ else _) => destruct b
      | |- signalled _ _ (match ?o with Some _ => _ | None => _ end) => destruct o
      end ].

Section Leaving.

Variable env : Env.

Lemma signalled_extended_body ui start_time :
  signalled env no_stop (Extended.body env ui start_time).
Proof.
  unfold Extended.body, Extended.paint_background, Extended.random_color,
    Extended.update_counter, Extended.update_time,
    Extended.update_color_info, Extended.draw_progress,
    Extended.blink_status, Extended.cycle_title, Extended.check_buttons,
    setText, setColor, setScreenColor, sleep_ms, lcd_rect, import_math,
    isPressed, ticks_ms, ticks_diff, getrandbits, emit, set_count.
  signalled_tac.
Qed.

Lemma signalled_simple_body ui : signalled env no_stop (Simple.body env ui).
Proof.
  unfold Simple.body, Simple.paint_background, Simple.random_color,
    Simple.update_counter, setText, setColor, setScreenColor, sleep_ms,
    getrandbits, emit, set_count.
  signalled_tac.
Qed.

Lemma signalled_on_error ui msg :
  signalled env no_stop (Extended.on_error env ui msg).
Proof.
  unfold Extended.on_error, print, setText, setColor, sleep_ms, emit.
  signalled_tac.
Qed.

(** A pass says [Break] only after the interrupt. *)
Lemma signalled_pass {A} (body : M A) (h : exn -> option (M Ctl)) :
  signalled env no_stop body ->
  (forall msg k, h (Exception msg) = Some k -> signalled env is_break k) ->
  (forall k s, h KeyboardInterrupt = Some k ->
               (clock s <= clock (snd (k s)))%nat) ->
  signalled env is_break (try_except (body ;; ret Continue) h).
Proof.
  intros Hbody Hexc Hint s. unfold try_except, bind.
  destruct (Hbody s) as [Hclock Hsig].
  destruct (body s) as [[a | e] s1]; simpl in *.
  - split; [assumption | discriminate].
  - destruct (h e) as [k |] eqn:Hh.
    + destruct e as [| msg].
      * specialize (Hint k s1 Hh). split; [lia |].
        intros _. destruct (Hsig I) as (t & Ht & Hf).
        exists t. split; [lia | assumption].
      * destruct (Hexc msg k Hh s1) as [Hclock' Hsig'].
        split; [lia |]. intros Hr. destruct (Hsig' Hr) as (t & Ht & Hf).
        exists t. split; [lia | assumption].
    + simpl. split; [assumption |]. destruct e; [| contradiction].
      intros _. now apply Hsig.
Qed.

Lemma signalled_extended_iteration ui start_time :
  signalled env is_break (Extended.iteration env ui start_time).
Proof.
  unfold Extended.iteration. apply signalled_pass.
  - apply signalled_extended_body.
  - intros msg k [= <-]. intros s.
    pose proof (signalled_on_error ui msg s) as [Hclock Hsig].
    unfold bind. destruct (Extended.on_error env ui msg s) as [[[] | e] s1];
      simpl in *; (split; [assumption |]); [discriminate | exact Hsig].
  - intros k s [= <-]. unfold print, emit, bind, call, modify, ret.
    destruct (fault env (clock s)); simpl; lia.
Qed.

Lemma signalled_simple_iteration ui :
  signalled env is_break (Simple.iteration env ui).
Proof.
  unfold Simple.iteration. apply signalled_pass.
  - apply signalled_simple_body.
  - intros msg k [=].
  - intros k s [= <-]. simpl. lia.
Qed.

Lemma signalled_while_true (pass : M Ctl) (fuel : nat) :
  signalled env is_break pass ->
  signalled env is_interrupted (while_true fuel pass).
Proof.
  intros Hp. induction fuel as [|fuel IH]; intros s.
  - simpl. split; [lia | discriminate].
  - cbn [while_true]. unfold bind.
    destruct (Hp s) as [Hclock Hsig].
    destruct (pass s) as [[[|] | e] s1]; simpl in *.
    + destruct (IH s1) as [Hclock' Hsig']. split; [lia |].
      intros Hr. destruct (Hsig' Hr) as (t & Ht & Hf).
      exists t. split; [lia | assumption].
    + split; [assumption |]. intros _. now apply Hsig.
    + split; [assumption |]. destruct e; [| contradiction].
      intros _. now apply Hsig.
Qed.

Lemma signalled_extended_script fuel :
  signalled env is_interrupted (Extended.script env fuel).
Proof.
  unfold Extended.script, Extended.main.
  apply signalled_bind; [unfold lcd_clear, emit; signalled_tac | intros _].
  apply signalled_bind; [unfold print, emit; signalled_tac | intros _].
  apply signalled_bind;
    [unfold Extended.init_ui, M5TextBox, lcd_rect, emit; signalled_tac | intros ui].
  apply signalled_bind; [unfold set_count; signalled_tac | intros _].
  apply signalled_bind; [unfold ticks_ms; signalled_tac | intros start_time].
  apply signalled_while_true, signalled_extended_iteration.
Qed.

Lemma signalled_simple_script fuel :
  signalled env is_interrupted (Simple.script env fuel).
Proof.
  unfold Simple.script, Simple.main.
  apply signalled_bind; [unfold print, emit; signalled_tac | intros _].
  apply signalled_bind;
    [unfold Simple.init_ui, M5TextBox; signalled_tac | intros ui].
  apply signalled_bind; [unfold set_count; signalled_tac | intros _].
  apply signalled_while_true, signalled_simple_iteration.
Qed.

End Leaving.

(** X4.  [main] returns only on the user interrupt: when a run of either
    script, however long and whatever else goes wrong in it, ends with
    [main] returning, one of the calls made raised [KeyboardInterrupt].
    On a board that never raises it, [main] never returns. *)
Theorem main_returns_only_on_interrupt (env : Env) (fuel : nat) (s' : State) :
  Extended.script env fuel boot = (Ok Interrupted, s') \/
  Simple.script env fuel boot = (Ok Interrupted, s') ->
  exists t, (t < clock s')%nat /\ fault env t = Some KeyboardInterrupt.
Proof.
  intros [Hrun | Hrun].
  - destruct (signalled_extended_script env fuel boot) as [_ Hsig].
    rewrite Hrun in Hsig. destruct (Hsig eq_refl) as (t & Ht & Hf).
    exists t. split; [simpl in Ht; lia | assumption].
  - destruct (signalled_simple_script env fuel boot) as [_ Hsig].
    rewrite Hrun in Hsig. destruct (Hsig eq_refl) as (t & Ht & Hf).
    exists t. split; [simpl in Ht; lia | assumption].
Qed.

Lemma main_returns_only_on_interrupt_witness :
  exists t, (t < 12)%nat /\
            fault (env_fault_at 10 KeyboardInterrupt) t = Some KeyboardInterrupt.
Proof.
  apply (main_returns_only_on_interrupt (env_fault_at 10 KeyboardInterrupt) 5
           {| clock := 12; screen := 0; boxes := boxes ext_entry;
              trace := EvPrint "Program interrupted by user" :: trace ext_entry;
              count := 0 |}).
  left. vm_compute. reflexivity.
Defined.

(** ** Runs without a fault *)

Lemma while_true_snoc (pass : M Ctl) (n : nat) :
  forall s s1 s',
    while_true n pass s = (Ok Looping, s1) ->
    pass s1 = (Ok Continue, s') ->
    while_true (S n) pass s = (Ok Looping, s').
Proof.
  induction n as [|n IH]; intros s s1 s' Hrun Hpass.
  - injection Hrun as <-. cbn [while_true].
    now rewrite (bind_Ok _ _ _ _ _ Hpass).
  - cbn [while_true] in Hrun. unfold bind in Hrun.
    destruct (pass s) as [[[|] | e] s2] eqn:Hfirst; try discriminate.
    change (while_true (S (S n)) pass s)
      with (bind pass (fun c => match c with
                                | Break => ret Interrupted
                                | Continue => while_true (S n) pass
                                end) s).
    rewrite (bind_Ok _ _ _ _ _ Hfirst). now apply (IH s2 s1).
Qed.

Section Runs.

Variable env : Env.

Lemma extended_run_inv ui start_time (n : nat) :
  forall s,
    quiet env (clock s) (22 * n) -> ui_ok ui s ->
    exists s',
      while_true n (Extended.iteration env ui start_time) s = (Ok Looping, s') /\
      count s' = count s + Z.of_nat n /\
      ui_ok ui s' /\
      (clock s <= clock s' <= clock s + 22 * n)%nat.
Proof.
  induction n as [|n IH]; intros s Hq Hui.
  - exists s. split; [reflexivity | split; [lia | split; [assumption | lia]]].
  - destruct (extended_iteration_ok env ui start_time s)
      as (s1 & Hit & Hc & Hui1 & Hcl);
      [intros t' Ht'; apply Hq; lia | assumption |].
    destruct (IH s1) as (s' & Hrun & Hc' & Hui' & Hcl'); [| assumption |].
    { intros t' Ht'. apply Hq. lia. }
    exists s'. split; [| split; [lia | split; [assumption | lia]]].
    cbn [while_true]. now rewrite (bind_Ok _ _ _ _ _ Hit).
Qed.

(** The extended script at the top of its loop. *)
Lemma extended_script_entry (fuel : nat) :
  quiet env 0 10 ->
  Extended.script env fuel boot =
    while_true fuel (Extended.iteration env ext_ui (ticks_ms_at env 9))
      {| clock := 10; screen := 0; boxes := initial_labels;
         trace := [EvRect 10 200 300 20 0x333333 0x333333;
                   EvPrint "M5Stack Flash Sample Started!"; EvClear];
         count := 0 |}.
Proof.
  intros Hq. unfold Extended.script, Extended.main, Extended.init_ui.
  run. reflexivity.
Qed.

Lemma extended_entry_ui_ok (c t z : _) (tr : list Event) :
  ui_ok ext_ui
    {| clock := c; screen := z; boxes := initial_labels; trace := tr;
       count := t |}.
Proof. split; apply (bool_decide_unpack _); vm_compute; exact I. Qed.

End Runs.

(** X5.  After [n + 1] passes without a fault, counted from the start of
    the extended script, the loop is still running, the counter is
    [n + 1], its label reads "Count: " and that number, the title has the
    colour at position [(n + 1) mod 7] of the palette, and the status
    label shows the phase of [(n + 1) mod 4]. *)
Theorem display_after_passes (env : Env) (n : nat) :
  quiet env 0 (10 + 22 * S n) ->
  exists s',
    Extended.script env (S n) boot = (Ok Looping, s') /\
    count s' = Z.of_nat (S n) /\
    box_text <$> boxes s' !! Extended.counter ext_ui =
      Some ("Count: " ++ py_str (Z.of_nat (S n)))%string /\
    box_color <$> boxes s' !! Extended.title ext_ui =
      palette !! Z.to_nat (Z.of_nat (S n) mod 7) /\
    label s' (Extended.status ext_ui) =
      Some (if Z.of_nat (S n) mod 4 <? 2 then status_active else status_ready).
Proof.
  intros Hq.
  rewrite extended_script_entry by (intros t Ht; apply Hq; lia).
  set (start_time := ticks_ms_at env 9).
  set (s0 := {| clock := 10; screen := 0; boxes := initial_labels;
                trace := [EvRect 10 200 300 20 0x333333 0x333333;
                          EvPrint "M5Stack Flash Sample Started!"; EvClear];
                count := 0 |}).
  destruct (extended_run_inv env ext_ui start_time n s0)
    as (s1 & Hrun & Hc & Hui & Hcl).
  { intros t Ht. apply Hq. cbn [clock s0] in Ht. lia. }
  { apply extended_entry_ui_ok. }
  cbn [clock count s0] in Hc, Hcl.
  destruct (extended_pass_ok env ext_ui start_time s1)
    as (s' & Hbody & Hcount & _ & Hcounter & _ & _ & Hstatus & Htitle & _);
    [intros t Ht; apply Hq; lia | assumption |].
  replace (count s1 + 1) with (Z.of_nat (S n)) in * by lia.
  exists s'. split; [| now repeat split].
  apply (while_true_snoc _ n s0 s1 s'); [exact Hrun |].
  unfold Extended.iteration. apply try_except_Ok.
  now rewrite (bind_Ok _ _ _ _ _ Hbody).
Qed.

Lemma display_after_passes_witness :
  exists s',
    Extended.script env_calm (S 6) boot = (Ok Looping, s') /\
    count s' = Z.of_nat (S 6) /\
    box_text <$> boxes s' !! Extended.counter ext_ui =
      Some ("Count: " ++ py_str (Z.of_nat (S 6)))%string /\
    box_color <$> boxes s' !! Extended.title ext_ui =
      palette !! Z.to_nat (Z.of_nat (S 6) mod 7) /\
    label s' (Extended.status ext_ui) =
      Some (if Z.of_nat (S 6) mod 4 <? 2 then status_active else status_ready).
Proof.
  apply (display_after_passes env_calm 6).
  intros t' _. reflexivity.
Defined.

(** ** The simple script without a fault *)

Lemma simple_ui_ok_inv ui s :
  simple_ui_ok ui s ->
  (Simple.title ui <> Simple.info ui /\
   Simple.title ui <> Simple.counter ui /\
   Simple.info ui <> Simple.counter ui) /\
  (Simple.title ui < length (boxes s) /\
   Simple.info ui < length (boxes s) /\
   Simple.counter ui < length (boxes s))%nat.
Proof.
  intros [Hnd Hlen]. unfold simple_handles in *. split.
  - repeat match goal with
           | H : NoDup (_ :: _) |- _ => apply NoDup_cons in H; destruct H
           end.
    repeat match goal with
           | H : _ ∉ _ :: _ |- _ => apply not_elem_of_cons in H; destruct H
           end.
    repeat split; congruence.
  - repeat match goal with
           | H : Forall _ (_ :: _) |- _ => apply Forall_cons in H; destruct H
           end.
    repeat split; assumption.
Qed.

Lemma simple_ui_ok_length ui s s' :
  length (boxes s') = length (boxes s) -> simple_ui_ok ui s -> simple_ui_ok ui s'.
Proof. intros Hlen [Hnd Hb]. split; [assumption |]. now rewrite Hlen. Qed.

Section SimpleRuns.

Variable env : Env.

(** Everything a pass of the simple script does when none of its eight
    calls raises. *)
Lemma simple_pass_ok ui s :
  quiet env (clock s) 8 -> simple_ui_ok ui s ->
  exists s',
    Simple.body env ui s = (Ok tt, s') /\
    count s' = count s + 1 /\
    screen s' = getrandbits_at env (clock s) 16 /\
    box_text <$> boxes s' !! Simple.counter ui = Some (py_str (count s + 1)) /\
    box_color <$> boxes s' !! Simple.title ui =
      Some (getrandbits_at env (3 + clock s) 16) /\
    box_color <$> boxes s' !! Simple.info ui =
      Some (getrandbits_at env (5 + clock s) 16) /\
    box_text <$> boxes s' !! Simple.title ui =
      box_text <$> boxes s !! Simple.title ui /\
    box_text <$> boxes s' !! Simple.info ui =
      box_text <$> boxes s !! Simple.info ui /\
    trace s' = EvSleep 1000 :: trace s /\
    length (boxes s') = length (boxes s) /\
    clock s' = (clock s + 8)%nat.
Proof.
  intros Hq Hui.
  destruct (simple_ui_ok_inv ui s Hui) as ((? & ? & ?) & (Ht & Hi & Hc)).
  destruct (lookup_lt_is_Some_2 _ _ Ht) as [b0 Hb0].
  destruct (lookup_lt_is_Some_2 _ _ Hi) as [b1 Hb1].
  destruct (lookup_lt_is_Some_2 _ _ Hc) as [b2 Hb2].
  unfold Simple.body, Simple.paint_background, Simple.update_counter,
    Simple.random_color.
  cbn [Nat.add]. run. eexists. split; [prim |]. state_simpl. lookup_simpl.
  rewrite ?Hb0, ?Hb1, ?Hb2, ?length_alter. repeat split; lia.
Qed.

Lemma simple_run_inv ui (n : nat) :
  forall s,
    quiet env (clock s) (8 * n) -> simple_ui_ok ui s ->
    exists s',
      while_true n (Simple.iteration env ui) s = (Ok Looping, s') /\
      count s' = count s + Z.of_nat n /\
      trace s' = (replicate n (EvSleep 1000) ++ trace s)%list /\
      (box_text <$> boxes s !! Simple.counter ui = Some (py_str (count s)) \/
       (0 < n)%nat ->
       box_text <$> boxes s' !! Simple.counter ui = Some (py_str (count s'))) /\
      box_text <$> boxes s' !! Simple.title ui =
        box_text <$> boxes s !! Simple.title ui /\
      box_text <$> boxes s' !! Simple.info ui =
        box_text <$> boxes s !! Simple.info ui /\
      clock s' = (clock s + 8 * n)%nat.
Proof.
  induction n as [|n IH]; intros s Hq Hui.
  - exists s. repeat split; try reflexivity; try lia.
    intros [H | H]; [assumption | lia].
  - destruct (simple_pass_ok ui s)
      as (s1 & Hbody & Hc & _ & Hcounter & _ & _ & Htitle & Hinfo & Htr & Hlen & Hcl);
      [intros t' Ht'; apply Hq; lia | assumption |].
    destruct (IH s1) as (s' & Hrun & Hc' & Htr' & Hcounter' & Htitle' & Hinfo' & Hcl').
    { intros t' Ht'. apply Hq. lia. }
    { now apply (simple_ui_ok_length ui s). }
    exists s'. split; [| repeat split].
    + assert (Hit : Simple.iteration env ui s = (Ok Continue, s1)).
      { unfold Simple.iteration. apply try_except_Ok.
        now rewrite (bind_Ok _ _ _ _ _ Hbody). }
      cbn [while_true]. now rewrite (bind_Ok _ _ _ _ _ Hit).
    + lia.
    + rewrite Htr', Htr. cbn [replicate].
      now rewrite replicate_cons_app, <- (assoc_L (++)).
    + intros _. apply Hcounter'. left. now rewrite Hcounter, Hc.
    + now rewrite Htitle', Htitle.
    + now rewrite Hinfo', Hinfo.
    + lia.
Qed.

(** The simple script at the top of its loop. *)
Lemma simple_script_entry (fuel : nat) :
  quiet env 0 4 ->
  Simple.script env fuel boot =
    while_true fuel (Simple.iteration env simple_ui)
      {| clock := 4; screen := 0;
         boxes := [mkTextBox 50 50 "HELLO M5STACK" "FONT_DejaVu24" 0xFFFFFF 0;
                   mkTextBox 80 100 "Random Colors!" "FONT_Default" 0x00FFFF 0;
                   mkTextBox 100 150 "0" "FONT_DejaVu18" 0xFFFF00 0];
         trace := [EvPrint "Simple Flash Sample Started!"];
         count := 0 |}.
Proof.
  intros Hq. unfold Simple.script, Simple.main, Simple.init_ui.
  run. reflexivity.
Qed.

End SimpleRuns.

(** X6.  A pass of the simple script without a fault makes eight calls:
    it paints the screen in the first colour drawn, adds one to the
    counter and writes it to the counter label, gives the title the
    second colour drawn and the info label the third, and sleeps for one
    second; the texts of the title and the info label, and the number of
    labels, stay.  With a random source that keeps to 16 bits the three
    colours lie in [[0, 65535]]. *)
Theorem simple_pass_spec (env : Env) (ui : Simple.UI) (s : State) :
  quiet env (clock s) 8 ->
  simple_ui_ok ui s ->
  rng_ok env ->
  exists s' bg c1 c2,
    Simple.body env ui s = (Ok tt, s') /\
    bg = getrandbits_at env (clock s) 16 /\
    c1 = getrandbits_at env (3 + clock s) 16 /\
    c2 = getrandbits_at env (5 + clock s) 16 /\
    (0 <= bg <= 65535 /\ 0 <= c1 <= 65535 /\ 0 <= c2 <= 65535) /\
    screen s' = bg /\
    count s' = count s + 1 /\
    box_text <$> boxes s' !! Simple.counter ui = Some (py_str (count s')) /\
    box_color <$> boxes s' !! Simple.title ui = Some c1 /\
    box_color <$> boxes s' !! Simple.info ui = Some c2 /\
    box_text <$> boxes s' !! Simple.title ui =
      box_text <$> boxes s !! Simple.title ui /\
    box_text <$> boxes s' !! Simple.info ui =
      box_text <$> boxes s !! Simple.info ui /\
    trace s' = EvSleep 1000 :: trace s /\
    length (boxes s') = length (boxes s) /\
    clock s' = (clock s + 8)%nat.
Proof.
  intros Hq Hui Hrng.
  destruct (simple_pass_ok env ui s Hq Hui)
    as (s' & Hbody & Hc & Hscr & Hcounter & Htitle & Hinfo & Htt & Hit & Htr
        & Hlen & Hcl).
  eexists s', _, _, _. split; [exact Hbody |].
  do 3 (split; [reflexivity |]).
  pose proof (Hrng (clock s) 16 ltac:(lia)).
  pose proof (Hrng (3 + clock s)%nat 16 ltac:(lia)).
  pose proof (Hrng (5 + clock s)%nat 16 ltac:(lia)).
  change (2 ^ 16) with 65536 in *.
  split; [lia |]. rewrite Hc. repeat split; assumption.
Qed.

Lemma simple_pass_spec_witness :
  exists s' bg c1 c2,
    Simple.body env_calm simple_ui simple_entry = (Ok tt, s') /\
    bg = getrandbits_at env_calm (clock simple_entry) 16 /\
    c1 = getrandbits_at env_calm (3 + clock simple_entry) 16 /\
    c2 = getrandbits_at env_calm (5 + clock simple_entry) 16 /\
    (0 <= bg <= 65535 /\ 0 <= c1 <= 65535 /\ 0 <= c2 <= 65535) /\
    screen s' = bg /\
    count s' = count simple_entry + 1 /\
    box_text <$> boxes s' !! Simple.counter simple_ui = Some (py_str (count s')) /\
    box_color <$> boxes s' !! Simple.title simple_ui = Some c1 /\
    box_color <$> boxes s' !! Simple.info simple_ui = Some c2 /\
    box_text <$> boxes s' !! Simple.title simple_ui =
      box_text <$> boxes simple_entry !! Simple.title simple_ui /\
    box_text <$> boxes s' !! Simple.info simple_ui =
      box_text <$> boxes simple_entry !! Simple.info simple_ui /\
    trace s' = EvSleep 1000 :: trace simple_entry /\
    length (boxes s') = length (boxes simple_entry) /\
    clock s' = (clock simple_entry + 8)%nat.
Proof.
  apply (simple_pass_spec env_calm simple_ui simple_entry).
  - intros t' _. reflexivity.
  - split; apply (bool_decide_unpack _); vm_compute; exact I.
  - intros t n Hn. apply Z.mod_pos_bound. apply Z.pow_pos_nonneg; lia.
Defined.

(** X7.  After [n] passes without a fault the simple script is still in
    its loop: it has made [4 + 8 n] calls and slept [n] times one second
    and nothing else, the start-up line is all it has printed, the counter
    is [n] and its label reads [n], and the title and the info label read
    what they read at the start. *)
Theorem simple_run_spec (env : Env) (n : nat) :
  quiet env 0 (4 + 8 * n) ->
  exists s',
    Simple.script env n boot = (Ok Looping, s') /\
    count s' = Z.of_nat n /\
    trace s' =
      (replicate n (EvSleep 1000) ++ [EvPrint "Simple Flash Sample Started!"])%list /\
    box_text <$> boxes s' !! Simple.counter simple_ui = Some (py_str (Z.of_nat n)) /\
    box_text <$> boxes s' !! Simple.title simple_ui = Some "HELLO M5STACK" /\
    box_text <$> boxes s' !! Simple.info simple_ui = Some "Random Colors!" /\
    clock s' = (4 + 8 * n)%nat.
Proof.
  intros Hq.
  rewrite simple_script_entry by (intros t Ht; apply Hq; lia).
  match goal with
  | |- context [while_true n _ ?s] =>
      destruct (simple_run_inv env simple_ui n s)
        as (s' & Hrun & Hc & Htr & Hcounter & Htitle & Hinfo & Hcl)
  end.
  { intros t Ht. apply Hq. cbn [clock] in Ht. lia. }
  { split; apply (bool_decide_unpack _); vm_compute; exact I. }
  cbn [clock count trace boxes] in *.
  exists s'. split; [exact Hrun |]. split; [lia |]. split; [exact Htr |].
  split; [| split; [exact Htitle | split; [exact Hinfo | lia]]].
  replace (Z.of_nat n) with (count s') by lia.
  apply Hcounter. left. reflexivity.
Qed.

Lemma simple_run_spec_witness :
  exists s',
    Simple.script env_calm 3 boot = (Ok Looping, s') /\
    count s' = Z.of_nat 3 /\
    trace s' =
      (replicate 3 (EvSleep 1000) ++ [EvPrint "Simple Flash Sample Started!"])%list /\
    box_text <$> boxes s' !! Simple.counter simple_ui = Some (py_str (Z.of_nat 3)) /\
    box_text <$> boxes s' !! Simple.title simple_ui = Some "HELLO M5STACK" /\
    box_text <$> boxes s' !! Simple.info simple_ui = Some "Random Colors!" /\
    clock s' = (4 + 8 * 3)%nat.
Proof.
  apply (simple_run_spec env_calm 3).
  intros t' _. reflexivity.
Defined.

(** ** What the labels say *)

(** X8.  After a pass of the extended script without a fault the colour
    label names the colour the screen has: "RGB: 0x" and six hexadecimal
    digits that read back as the screen colour, which is a 16-bit value
    when the random source keeps to the bits asked for. *)
Theorem color_label_shows_screen (env : Env) (ui : Extended.UI)
    (start_time : Z) (s : State) :
  quiet env (clock s) 22 ->
  ui_ok ui s ->
  rng_ok env ->
  exists s' hex,
    Extended.body env ui start_time s = (Ok tt, s') /\
    box_text <$> boxes s' !! Extended.color_info ui =
      Some ("RGB: 0x" ++ hex)%string /\
    String.length hex = 6%nat /\
    parse_digits 16 0 hex = Some (screen s') /\
    0 <= screen s' <= 65535.
Proof.
  intros Hq Hui Hrng.
  destruct (extended_pass_ok env ui start_time s Hq Hui)
    as (s' & Hbody & _ & Hscr & _ & _ & Hlabel & _).
  pose proof (Hrng (clock s) 5 ltac:(lia)) as Hr.
  pose proof (Hrng (1 + clock s)%nat 6 ltac:(lia)) as Hg.
  pose proof (Hrng (2 + clock s)%nat 5 ltac:(lia)) as Hb.
  change (2 ^ 5) with 32 in Hr, Hb. change (2 ^ 6) with 64 in Hg.
  destruct (rgb565_fields (getrandbits_at env (clock s) 5)
              (getrandbits_at env (1 + clock s) 6)
              (getrandbits_at env (2 + clock s) 5))
    as (Hval & _); [lia | lia | lia |].
  cbv zeta in Hval, Hscr, Hlabel. rewrite <- Hscr in Hlabel.
  assert (Hrange : 0 <= screen s' <= 65535) by (rewrite Hscr, Hval; lia).
  exists s', (format_06X (screen s')).
  split; [assumption |]. split; [exact Hlabel |].
  unfold format_06X. rewrite zero_pad_length by lia.
  pose proof (digits_length_le 16 ltac:(lia) 6 (screen s') ltac:(lia) ltac:(lia)).
  split; [lia |]. split; [apply parse_zero_pad; lia | assumption].
Qed.

Lemma color_label_shows_screen_witness :
  exists s' hex,
    Extended.body env_calm ext_ui ext_start ext_entry = (Ok tt, s') /\
    box_text <$> boxes s' !! Extended.color_info ext_ui =
      Some ("RGB: 0x" ++ hex)%string /\
    String.length hex = 6%nat /\
    parse_digits 16 0 hex = Some (screen s') /\
    0 <= screen s' <= 65535.
Proof.
  apply (color_label_shows_screen env_calm ext_ui ext_start ext_entry).
  - intros t' _. reflexivity.
  - split; apply (bool_decide_unpack _); vm_compute; exact I.
  - intros t n Hn. apply Z.mod_pos_bound. apply Z.pow_pos_nonneg; lia.
Defined.

(** X9.  After a pass of the extended script without a fault the counter
    label reads "Count: " and the decimal digits of the counter, without
    padding: they read back as the counter (which is positive as soon as
    it was not negative before). *)
Theorem counter_label_reads_count (env : Env) (ui : Extended.UI)
    (start_time : Z) (s : State) :
  quiet env (clock s) 22 ->
  ui_ok ui s ->
  0 <= count s ->
  exists s' d,
    Extended.body env ui start_time s = (Ok tt, s') /\
    box_text <$> boxes s' !! Extended.counter ui =
      Some ("Count: " ++ d)%string /\
    d = digits 10 (count s') /\
    parse_digits 10 0 d = Some (count s') /\
    count s' = count s + 1.
Proof.
  intros Hq Hui Hc.
  destruct (extended_pass_ok env ui start_time s Hq Hui)
    as (s' & Hbody & Hcount & _ & Hlabel & _).
  cbv zeta in Hcount, Hlabel. rewrite <- Hcount in Hlabel.
  exists s', (digits 10 (count s')).
  split; [assumption |]. split.
  - rewrite Hlabel. unfold py_str.
    now rewrite (zero_pad_nonneg 10) by lia.
  - split; [reflexivity |]. split; [apply parse_digits_digits; lia | assumption].
Qed.

Lemma counter_label_reads_count_witness :
  exists s' d,
    Extended.body env_calm ext_ui ext_start ext_entry = (Ok tt, s') /\
    box_text <$> boxes s' !! Extended.counter ext_ui =
      Some ("Count: " ++ d)%string /\
    d = digits 10 (count s') /\
    parse_digits 10 0 d = Some (count s') /\
    count s' = count ext_entry + 1.
Proof.
  apply (counter_label_reads_count env_calm ext_ui ext_start ext_entry).
  - intros t' _. reflexivity.
  - split; apply (bool_decide_unpack _); vm_compute; exact I.
  - vm_compute. discriminate.
Defined.

(** ** Colours, the other way round *)

Lemma rgb565_fields_of (c : Z) :
  0 <= c <= 65535 ->
  0 <= red_of c <= 31 /\ 0 <= green_of c <= 63 /\ 0 <= blue_of c <= 31 /\
  red_of c * 2048 + green_of c * 32 + blue_of c = c.
Proof.
  intros Hc. unfold red_of, green_of, blue_of.
  change 0x1F with (Z.ones 5). change 0x3F with (Z.ones 6).
  rewrite !Z.land_ones, !Z.shiftr_div_pow2 by lia.
  change (2 ^ 11) with 2048. change (2 ^ 5) with 32. change (2 ^ 6) with 64.
  assert (Hdiv : c / 2048 = c / 32 / 64)
    by (rewrite Z.div_div by lia; reflexivity).
  rewrite Hdiv.
  pose proof (Z.div_mod c 32 ltac:(lia)) as H32.
  pose proof (Z.mod_pos_bound c 32 ltac:(lia)) as Hb32.
  set (q := c / 32) in *.
  pose proof (Z.div_mod q 64 ltac:(lia)) as H64.
  pose proof (Z.mod_pos_bound q 64 ltac:(lia)) as Hb64.
  set (p := q / 64) in *.
  clearbody p. clearbody q.
  change (Z.ones 5) with 31. change (Z.ones 6) with 63.
  assert (Hp : 0 <= p <= 31) by lia.
  rewrite (Z.mod_small p 32) by lia.
  repeat split; lia.
Qed.

(** X10.  Every 16-bit value is a colour the extended [random_color] can
    return: the red, green and blue fields read off a value from 0 to
    65535 are of 5, 6 and 5 bits, and when the random source hands out
    these three, [random_color] returns the value. *)
Theorem every_color_reachable (env : Env) (s : State) (c : Z) :
  0 <= c <= 65535 ->
  quiet env (clock s) 3 ->
  getrandbits_at env (clock s) 5 = red_of c ->
  getrandbits_at env (S (clock s)) 6 = green_of c ->
  getrandbits_at env (S (S (clock s))) 5 = blue_of c ->
  (0 <= red_of c <= 31 /\ 0 <= green_of c <= 63 /\ 0 <= blue_of c <= 31) /\
  Z.lor (Z.lor (Z.shiftl (red_of c) 11) (Z.shiftl (green_of c) 5)) (blue_of c) = c /\
  exists s', Extended.random_color env s = (Ok c, s').
Proof.
  intros Hc Hq Hr Hg Hb.
  destruct (rgb565_fields_of c Hc) as (Hr' & Hg' & Hb' & Hsum).
  destruct (rgb565_fields _ _ _ Hr' Hg' Hb') as (Hval & _). cbv zeta in Hval.
  assert (Hpack : Z.lor (Z.lor (Z.shiftl (red_of c) 11) (Z.shiftl (green_of c) 5))
                       (blue_of c) = c) by lia.
  split; [auto |]. split; [exact Hpack |].
  unfold Extended.random_color. do 2 step. state_simpl.
  eexists. step. state_simpl. rewrite Hr, Hg, Hb, Hpack. reflexivity.
Qed.

Lemma every_color_reachable_witness :
  (0 <= red_of 0x7FCD <= 31 /\ 0 <= green_of 0x7FCD <= 63 /\
   0 <= blue_of 0x7FCD <= 31) /\
  Z.lor (Z.lor (Z.shiftl (red_of 0x7FCD) 11) (Z.shiftl (green_of 0x7FCD) 5))
        (blue_of 0x7FCD) = 0x7FCD /\
  exists s', Extended.random_color env_calm ext_entry = (Ok 0x7FCD, s').
Proof.
  apply (every_color_reachable env_calm ext_entry 0x7FCD).
  - lia.
  - intros t' _. reflexivity.
  - reflexivity.
  - reflexivity.
  - reflexivity.
Defined.

(** ** The layout *)

Lemma geometry_alter (f : TextBox -> TextBox) (h : nat) (bs : list TextBox) :
  (forall b, geometry (f b) = geometry b) ->
  geometry <$> alter f h bs = geometry <$> bs.
Proof.
  intros Hf. apply list_eq. intros i. rewrite !list_lookup_fmap.
  destruct (decide (i = h)) as [-> | Hne].
  - rewrite list_lookup_alter_eq. destruct (bs !! h); simpl; [| reflexivity].
    now rewrite Hf.
  - now rewrite list_lookup_alter_ne.
Qed.

Lemma keeps_geometry_text (h : nat) (txt : string) :
  keeps (fun s => geometry <$> boxes s) (update_box h (with_text txt)).
Proof.
  intros s. unfold update_box. destruct (boxes s !! h); simpl; [| reflexivity].
  now apply geometry_alter.
Qed.

Lemma keeps_geometry_color (h : nat) (c : Z) :
  keeps (fun s => geometry <$> boxes s) (update_box h (with_color c)).
Proof.
  intros s. unfold update_box. destruct (boxes s !! h); simpl; [| reflexivity].
  now apply geometry_alter.
Qed.

Lemma keeps_loop {X} (f : State -> X) (pass : M Ctl) (fuel : nat) :
  keeps f pass -> keeps f (while_true fuel pass).
Proof.
  intros Hp. induction fuel as [|fuel IH]; simpl.
  - apply keeps_ret.
  - apply keeps_bind; [assumption |]. intros [|]; [assumption | apply keeps_ret].
Qed.

Lemma keeps_handled {X A} (f : State -> X) (m : M A) (h : exn -> option (M A)) :
  keeps f m -> (forall e k, h e = Some k -> keeps f k) ->
  keeps f (try_except m h).
Proof. intros Hm Hh s. rewrite try_except_keeps by assumption. apply Hm. Qed.

Ltac keeps_geometry_tac :=
  repeat first
    [ apply keeps_ret
    | apply keeps_raise
    | apply keeps_get_count
    | apply keeps_geometry_text
    | apply keeps_geometry_color
    | apply keeps_call; reflexivity
    | apply keeps_modify; reflexivity
    | apply keeps_bind; [| intros ?]
    | match goal with
      | |- keeps _ (if ?b then _ else _) => destruct b
      | |- keeps _ (match ?o with Some _ => _ | None => _ end) => destruct o
      end ].

(** X11.  Whatever happens in the loop of either script, faults and the
    interrupt included, the labels stay where they are: their number,
    their positions, fonts and rotations are after any number of passes
    what they were before the first. *)
Theorem layout_never_changes (env : Env) (fuel : nat) (s : State) :
  (forall ui start_time,
      geometry <$>
        boxes (snd (while_true fuel (Extended.iteration env ui start_time) s)) =
      geometry <$> boxes s) /\
  (forall ui,
      geometry <$> boxes (snd (while_true fuel (Simple.iteration env ui) s)) =
      geometry <$> boxes s).
Proof.
  split.
  - intros ui start_time.
    apply (keeps_loop (fun s => geometry <$> boxes s)).
    unfold Extended.iteration. apply keeps_handled.
    + unfold Extended.body, Extended.paint_background, Extended.random_color,
        Extended.update_counter, Extended.update_time,
        Extended.update_color_info, Extended.draw_progress,
        Extended.blink_status, Extended.cycle_title, Extended.check_buttons,
        setText, setColor, setScreenColor, sleep_ms, lcd_rect, import_math,
        isPressed, ticks_ms, ticks_diff, getrandbits, emit, set_count.
      keeps_geometry_tac.
    + intros [| msg] k [= <-];
        unfold Extended.on_error, print, setText, setColor, sleep_ms, emit;
        keeps_geometry_tac.
  - intros ui.
    apply (keeps_loop (fun s => geometry <$> boxes s)).
    unfold Simple.iteration. apply keeps_handled.
    + unfold Simple.body, Simple.paint_background, Simple.random_color,
        Simple.update_counter, setText, setColor, setScreenColor, sleep_ms,
        getrandbits, emit, set_count.
      keeps_geometry_tac.
    + intros [| msg] k [= <-]. keeps_geometry_tac.
Qed.

(** ** The clock running backwards *)

Lemma zero_pad_negative (n : Z) :
  n < 0 -> zero_pad 2 10 n = ("-" ++ digits 10 (- n))%string.
Proof.
  intros Hn. unfold zero_pad.
  destruct (Z.ltb_spec n 0) as [_ | Hbad]; [| lia].
  rewrite Z.abs_neq by lia.
  destruct (String.length (digits 10 (- n))) as [|k] eqn:Hk.
  - exfalso. unfold digits in Hk. rewrite render_digits_S in Hk.
    destruct (- n / 10 =? 0); [discriminate |].
    rewrite render_digits_acc, string_length_app in Hk. simpl in Hk. lia.
  - reflexivity.
Qed.

(** X12.  When the tick difference is negative (the tick counter wrapped
    round, or the clock went back), the floor division and the modulo of
    lines 68-70 give a minutes field below zero and a seconds field still
    from 00 to 59: the label reads "Time: -" and then the minutes short of
    the start, a colon, and the seconds, counted upwards.  One second
    before the start shows as "-1:59". *)
Theorem time_display_negative (env : Env) (ui : Extended.UI) (start_time : Z)
    (s : State) (e : Z) :
  quiet env (clock s) 3 ->
  (Extended.time_display ui < length (boxes s))%nat ->
  e = ticks_diff_of env (ticks_ms_at env (clock s)) start_time / 1000 ->
  e < 0 ->
  (exists s' mm ss,
      Extended.update_time env ui start_time s = (Ok tt, s') /\
      box_text <$> boxes s' !! Extended.time_display ui =
        Some ("Time: -" ++ mm ++ ":" ++ ss)%string /\
      parse_digits 10 0 mm = Some (- (e / 60)) /\
      1 <= - (e / 60) /\
      parse_digits 10 0 ss = Some (e mod 60) /\
      0 <= e mod 60 < 60 /\
      String.length ss = 2%nat) /\
  Extended.time_text (-1) = ("Time: " ++ "-1:59")%string.
Proof.
  intros Hq Hh He Hneg. split; [| reflexivity].
  unfold Extended.update_time. do 2 step. state_simpl. rewrite <- He.
  assert (Hmin : e / 60 < 0) by (apply Z.div_lt_upper_bound; lia).
  assert (Hsec : 0 <= e mod 60 < 60) by (apply Z.mod_pos_bound; lia).
  eexists _, (digits 10 (- (e / 60))), (format_02d (e mod 60)).
  split; [prim |]. state_simpl.
  split.
  { rewrite label_alter_text by assumption. unfold Extended.time_text.
    cbv zeta. unfold format_02d at 1. now rewrite zero_pad_negative by lia. }
  split; [apply parse_digits_digits; lia |].
  split; [lia |].
  unfold format_02d. split; [apply parse_zero_pad; lia |].
  split; [assumption |].
  rewrite zero_pad_length by lia.
  pose proof (digits_length_le 10 ltac:(lia) 2 (e mod 60) ltac:(lia) ltac:(lia)).
  lia.
Qed.

Lemma time_display_negative_witness :
  (exists s' mm ss,
      Extended.update_time env_calm ext_ui 126000 ext_entry = (Ok tt, s') /\
      box_text <$> boxes s' !! Extended.time_display ext_ui =
        Some ("Time: -" ++ mm ++ ":" ++ ss)%string /\
      parse_digits 10 0 mm = Some (- (-1 / 60)) /\
      1 <= - (-1 / 60) /\
      parse_digits 10 0 ss = Some (-1 mod 60) /\
      0 <= -1 mod 60 < 60 /\
      String.length ss = 2%nat) /\
  Extended.time_text (-1) = ("Time: " ++ "-1:59")%string.
Proof.
  apply (time_display_negative env_calm ext_ui 126000 ext_entry (-1)).
  - intros t' _. reflexivity.
  - vm_compute. lia.
  - vm_compute. reflexivity.
  - lia.
Defined.

(** ** The progress bar and its background *)

Lemma sin_eight_fifths :
  (9993 / 10000 < sin (IZR 8 * (2 / 10)) < 9997 / 10000)%R.
Proof.
  replace (IZR 8 * (2 / 10))%R with (8 / 5)%R by lra.
  destruct (pre_sin_bound (8 / 5) 1 ltac:(lra) ltac:(lra)) as [Hlo Hhi].
  unfold sin_approx, sin_term in Hlo, Hhi.
  cbn [sum_f_R0 Nat.mul Nat.add pow] in Hlo, Hhi.
  rewrite !INR_IZR_INZ in Hlo, Hhi.
  change (Z.of_nat (fact 1)) with 1 in Hlo, Hhi.
  change (Z.of_nat (fact 3)) with 6 in Hlo, Hhi.
  change (Z.of_nat (fact 5)) with 120 in Hlo, Hhi.
  change (Z.of_nat (fact 7)) with 5040 in Hlo, Hhi.
  assert (H9 : INR (fact 9) = 362880%R).
  { rewrite INR_IZR_INZ. apply f_equal. vm_compute. reflexivity. }
  rewrite H9 in Hhi.
  split; lra.
Qed.

(** At [count = 8] the bar is 299 wide, on every board whose floats are as
    [float_ok] says. *)
Lemma progress_at_8 (env : Env) (eps : R) :
  float_ok eps env -> Extended.progress env 8 = 299.
Proof.
  intros Hok.
  pose proof (progress_float_near env eps Hok 8 ltac:(lia)) as Hn.
  pose proof (float_eps_bound env eps Hok) as He.
  pose proof sin_eight_fifths as Hs.
  apply Rabs_le_iff in Hn.
  unfold Extended.progress. apply py_int_nonneg; [lra | lia].
Qed.

(** X13.  The two rectangles of the progress bar, as [draw_progress] draws
    them: the fill starts two columns inside the background and is up to
    300 wide, as wide as the background, so that it ends up to two columns
    past the right edge of the background.  It is past that edge when it
    is 299 or 300 wide, and it is: at [count = 8] the fill is 299 wide,
    one column past the edge (for a count up to [2 ^ 60], on a board whose
    floats are as [float_ok] says). *)
Theorem progress_fill_overshoots (env : Env) (eps : R) (s : State) :
  quiet env (clock s) 3 ->
  float_ok eps env ->
  0 <= count s <= 2 ^ 60 ->
  exists s' fill bg l r l' r',
    Extended.draw_progress env s = (Ok tt, s') /\
    trace s' = fill :: bg :: trace s /\
    bg = EvRect 10 200 300 20 0x333333 0x333333 /\
    fill = EvRect 12 202 (Extended.progress env (count s)) 16 0x00FF88 0x00FF88 /\
    rect_span bg = Some (l, r) /\
    rect_span fill = Some (l', r') /\
    l < l' <= r' /\
    r' <= r + 2 /\
    (r < r' <-> 299 <= Extended.progress env (count s)) /\
    (count s = 8 -> r' = r + 1).
Proof.
  intros Hq Hok Hc. unfold Extended.draw_progress. do 3 step. state_simpl.
  destruct (progress_floor env eps Hok (count s)) as [_ Hrange].
  eexists _, _, _, _, _, _, _. split; [prim |]. state_simpl.
  split; [reflexivity |]. do 2 (split; [reflexivity |]).
  cbn [rect_span]. do 2 (split; [reflexivity |]).
  split; [lia |]. split; [lia |]. split; [lia |].
  intros H8. rewrite H8, (progress_at_8 env eps Hok). reflexivity.
Qed.

Lemma progress_fill_overshoots_witness :
  exists s' fill bg l r l' r',
    Extended.draw_progress env_calm (put_count 8 ext_entry) = (Ok tt, s') /\
    trace s' = fill :: bg :: trace (put_count 8 ext_entry) /\
    bg = EvRect 10 200 300 20 0x333333 0x333333 /\
    fill = EvRect 12 202
             (Extended.progress env_calm (count (put_count 8 ext_entry))) 16
             0x00FF88 0x00FF88 /\
    rect_span bg = Some (l, r) /\
    rect_span fill = Some (l', r') /\
    l < l' <= r' /\
    r' <= r + 2 /\
    (r < r' <-> 299 <= Extended.progress env_calm (count (put_count 8 ext_entry))) /\
    (count (put_count 8 ext_entry) = 8 -> r' = r + 1).
Proof.
  apply (progress_fill_overshoots env_calm 0 (put_count 8 ext_entry)).
  - intros t' _. reflexivity.
  - exact env_calm_float_ok.
  - simpl. lia.
Defined.

(** ** After a handled fault *)

(** The handler makes four calls and leaves the number of text boxes as it
    was. *)
Lemma extended_on_error_frame env ui msg s :
  quiet env (clock s) 4 ->
  (Extended.status ui < length (boxes s))%nat ->
  exists s',
    Extended.on_error env ui msg s = (Ok tt, s') /\
    clock s' = (4 + clock s)%nat /\
    length (boxes s') = length (boxes s).
Proof.
  intros Hq Hh. unfold Extended.on_error.
  do 3 step. eexists. split; [prim |].
  state_simpl. split; [reflexivity |].
  now rewrite !length_alter.
Qed.

(** X14.  The error indication of the extended script lasts for one pass:
    when an [Exception] of the [try] block has been handled, and the next
    pass meets no fault, that pass counts on from where the faulty one
    stopped and puts the status label back to "Status: ACTIVE" in 0x00FF00
    or "Status: READY" in 0x0088FF. *)
Theorem error_indication_is_transient env ui start_time s msg s1 :
  Extended.body env ui start_time s = (Raise (Exception msg), s1) ->
  ui_ok ui s ->
  quiet env (clock s1) 26 ->
  exists s2 s3,
    Extended.iteration env ui start_time s = (Ok Continue, s2) /\
    label s2 (Extended.status ui) = Some status_error /\
    Extended.iteration env ui start_time s2 = (Ok Continue, s3) /\
    count s3 = count s1 + 1 /\
    label s3 (Extended.status ui) =
      Some (if (count s1 + 1) mod 4 <? 2 then status_active else status_ready).
Proof.
  intros Hbody Hui Hq.
  assert (Hlen1 : length (boxes s1) = length (boxes s)).
  { pose proof (extended_body_keeps_length env ui start_time s) as Hk.
    now rewrite Hbody in Hk. }
  assert (Hq4 : quiet env (clock s1) 4).
  { intros t Ht. apply Hq. lia. }
  assert (Hst : (Extended.status ui < length (boxes s1))%nat).
  { rewrite Hlen1. now destruct (ui_ok_inv ui s Hui) as (_ & _ & _ & ? & _). }
  destruct (extended_on_error_ok env ui msg s1 Hq4 Hst)
    as (s2 & Hrun & _ & Hlab & Hc).
  destruct (extended_on_error_frame env ui msg s1 Hq4 Hst)
    as (s2' & Hrun' & Hclock & Hlen2).
  rewrite Hrun in Hrun'. injection Hrun' as <-.
  assert (Hit : Extended.iteration env ui start_time s = (Ok Continue, s2)).
  { unfold Extended.iteration.
    rewrite (try_except_Raise _ _ s s1 (Exception msg)).
    - now rewrite (bind_Ok _ _ _ _ _ Hrun).
    - now rewrite (bind_Raise _ _ _ _ _ Hbody). }
  assert (Hui2 : ui_ok ui s2).
  { apply (ui_ok_length ui s); [congruence | assumption]. }
  assert (Hq2 : quiet env (clock s2) 22).
  { intros t Ht. apply Hq. lia. }
  destruct (extended_pass_ok env ui start_time s2 Hq2 Hui2)
    as (s3 & Hbody3 & Hcount & _ & _ & _ & _ & Hstatus & _).
  exists s2, s3. split; [exact Hit |]. split; [exact Hlab |].
  split; [| split].
  - unfold Extended.iteration. apply try_except_Ok.
    now rewrite (bind_Ok _ _ _ _ _ Hbody3).
  - rewrite Hcount. now rewrite Hc.
  - rewrite Hstatus. now rewrite Hc.
Qed.

Lemma error_indication_is_transient_witness :
  exists s2 s3,
    Extended.iteration (env_fault_at 14 (Exception "boom")) ext_ui ext_start
      ext_entry = (Ok Continue, s2) /\
    label s2 (Extended.status ext_ui) = Some status_error /\
    Extended.iteration (env_fault_at 14 (Exception "boom")) ext_ui ext_start
      s2 = (Ok Continue, s3) /\
    count s3 =
      count (snd (Extended.body (env_fault_at 14 (Exception "boom")) ext_ui
                    ext_start ext_entry)) + 1 /\
    label s3 (Extended.status ext_ui) =
      Some (if (count (snd (Extended.body (env_fault_at 14 (Exception "boom"))
                              ext_ui ext_start ext_entry)) + 1) mod 4 <? 2
            then status_active else status_ready).
Proof.
  apply (error_indication_is_transient (env_fault_at 14 (Exception "boom"))
           ext_ui ext_start ext_entry "boom").
  - vm_compute. reflexivity.
  - split; apply (bool_decide_unpack _); vm_compute; exact I.
  - intros t' Ht. vm_compute in Ht. simpl.
    destruct (Nat.eqb_spec t' 14) as [-> | _]; [lia | reflexivity].
Defined.
